(** * winfileask: marshalling for the Windows Open/Save common dialogs

    A shallow embedding of [winfileask.go].  Go strings are byte sequences
    and are modelled by [string] (a list of 8-bit characters); [uint16],
    [uint32], [uintptr] and runes are modelled by [Z]; a [*uint16] is
    modelled by the buffer it points into ([None] is the nil pointer).
    The two calls into comdlg32.dll are the only effect of the package and
    are kept explicit as nodes of an interaction type, [Exec].  The
    conversions of package syscall are those of Go 1.21 and later, which
    keep unpaired surrogates (WTF-8). *)

From Stdlib Require Import ZArith List String Ascii Bool Lia.
Import ListNotations.
Local Open Scope string_scope.
Local Open Scope Z_scope.

(** ** Go values *)

Definition uint16 := Z.
Definition rune := Z.

Definition byte_of_ascii (c : ascii) : Z := Z.of_N (N_of_ascii c).
Definition ascii_of_byte (b : Z) : ascii := ascii_of_N (Z.to_N b).

(** The bytes of a Go string, and the Go string made of some bytes. *)
Fixpoint bytes (s : string) : list Z :=
  match s with
  | EmptyString => []
  | String c r => byte_of_ascii c :: bytes r
  end.

Fixpoint string_of_bytes (l : list Z) : string :=
  match l with
  | [] => EmptyString
  | b :: r => String (ascii_of_byte b) (string_of_bytes r)
  end.

(** Errors returned by the package: the one made by [fmt.Errorf] in
    [ToRaw], and [syscall.EINVAL] from the UTF-16 conversion. *)
Inductive error : Type :=
| Errorf (msg : string)
| EINVAL.

(** ** UTF-8, as the Go runtime decodes and encodes it

    [decoderune] and [encoderune] follow runtime/utf8.go, which is what
    the conversions [[]rune(s)] and [string(runes)] execute.  On a string
    that is not empty [utf8.DecodeRuneInString] returns the rune and
    width [decoderune] returns, and [utf8.AppendRune] appends the bytes
    [encoderune] writes. *)
Module utf8.

Definition runeError : rune := 0xFFFD.
Definition runeSelf : Z := 0x80.
Definition maxRune : rune := 0x10FFFF.
Definition surrogateMin : rune := 0xD800.
Definition surrogateMax : rune := 0xDFFF.

Definition t1 := 0x00.
Definition tx := 0x80.
Definition t2 := 0xC0.
Definition t3 := 0xE0.
Definition t4 := 0xF0.
Definition t5 := 0xF8.
Definition maskx := 0x3F.
Definition mask2 := 0x1F.
Definition mask3 := 0x0F.
Definition mask4 := 0x07.
Definition rune1Max : rune := 0x7F.
Definition rune2Max : rune := 0x7FF.
Definition rune3Max : rune := 0xFFFF.
Definition locb := 0x80.
Definition hicb := 0xBF.

(** [locb <= b && b <= hicb] *)
Definition cont (b : Z) : bool := (locb <=? b) && (b <=? hicb).

(** [decoderune s] is the rune at the head of [s] and the number of
    bytes it takes; an ill-formed or short sequence is [runeError] of
    width one.  The ASCII case is the fast path of the range loop. *)
Definition decoderune (s : list Z) : rune * nat :=
  match s with
  | [] => (runeError, 1%nat)
  | s0 :: r0 =>
    if s0 <? runeSelf then (s0, 1%nat)
    else if (t2 <=? s0) && (s0 <? t3) then
      match r0 with
      | s1 :: _ =>
        if cont s1 then
          let r := Z.lor (Z.shiftl (Z.land s0 mask2) 6) (Z.land s1 maskx) in
          if rune1Max <? r then (r, 2%nat) else (runeError, 1%nat)
        else (runeError, 1%nat)
      | _ => (runeError, 1%nat)
      end
    else if (t3 <=? s0) && (s0 <? t4) then
      match r0 with
      | s1 :: s2 :: _ =>
        if cont s1 && cont s2 then
          let r := Z.lor (Z.lor (Z.shiftl (Z.land s0 mask3) 12)
                                (Z.shiftl (Z.land s1 maskx) 6))
                         (Z.land s2 maskx) in
          if (rune2Max <? r) && negb ((surrogateMin <=? r) && (r <=? surrogateMax))
          then (r, 3%nat) else (runeError, 1%nat)
        else (runeError, 1%nat)
      | _ => (runeError, 1%nat)
      end
    else if (t4 <=? s0) && (s0 <? t5) then
      match r0 with
      | s1 :: s2 :: s3 :: _ =>
        if cont s1 && cont s2 && cont s3 then
          let r := Z.lor (Z.lor (Z.lor (Z.shiftl (Z.land s0 mask4) 18)
                                       (Z.shiftl (Z.land s1 maskx) 12))
                                (Z.shiftl (Z.land s2 maskx) 6))
                         (Z.land s3 maskx) in
          if (rune3Max <? r) && (r <=? maxRune)
          then (r, 4%nat) else (runeError, 1%nat)
        else (runeError, 1%nat)
      | _ => (runeError, 1%nat)
      end
    else (runeError, 1%nat)
  end.

(** [for _, r := range s]: the fuel bounds the number of iterations,
    and the length of [s] is always enough. *)
Fixpoint runes_loop (fuel : nat) (s : list Z) : list rune :=
  match fuel with
  | O => []
  | S n =>
    match s with
    | [] => []
    | _ => let '(r, w) := decoderune s in r :: runes_loop n (skipn w s)
    end
  end.

(** [[]rune(s)] *)
Definition runes (s : list Z) : list rune := runes_loop (List.length s) s.

(** [byte(x)]: the low eight bits. *)
Definition byte (x : Z) : Z := Z.land x 0xFF.

(** [encoderune]: the UTF-8 bytes of one rune; a surrogate or a value
    out of range is written as [runeError]. *)
Definition encoderune (r : rune) : list Z :=
  let three (r : rune) :=
    [ Z.lor t3 (byte (Z.shiftr r 12));
      Z.lor tx (Z.land (byte (Z.shiftr r 6)) maskx);
      Z.lor tx (Z.land (byte r) maskx) ] in
  let i := r mod 2^32 in
  if i <=? rune1Max then [ byte r ]
  else if i <=? rune2Max then
    [ Z.lor t2 (byte (Z.shiftr r 6)); Z.lor tx (Z.land (byte r) maskx) ]
  else if (maxRune <? i) || ((surrogateMin <=? i) && (i <=? surrogateMax))
  then three runeError
  else if i <=? rune3Max then three r
  else
    [ Z.lor t4 (byte (Z.shiftr r 18));
      Z.lor tx (Z.land (byte (Z.shiftr r 12)) maskx);
      Z.lor tx (Z.land (byte (Z.shiftr r 6)) maskx);
      Z.lor tx (Z.land (byte r) maskx) ].

(** [string(runes)] *)
Definition string_of_runes (rs : list rune) : string :=
  string_of_bytes (flat_map encoderune rs).

(** [AppendRune] *)
Definition AppendRune (p : list Z) (r : rune) : list Z := (p ++ encoderune r)%list.

End utf8.

(** ** UTF-16, as package unicode/utf16 *)
Module utf16.

Definition replacementChar : rune := 0xFFFD.
Definition maxRune : rune := 0x10FFFF.
Definition surr1 := 0xd800.
Definition surr2 := 0xdc00.
Definition surr3 := 0xe000.
Definition surrSelf := 0x10000.

(** [EncodeRune]: the surrogate pair of a rune above the basic plane. *)
Definition EncodeRune (r : rune) : uint16 * uint16 :=
  let r' := r - surrSelf in
  (surr1 + Z.land (Z.shiftr r' 10) 0x3ff, surr2 + Z.land r' 0x3ff).

(** The units of one rune: itself, its surrogate pair, or U+FFFD for a
    surrogate or a value out of range. *)
Definition encode1 (v : rune) : list uint16 :=
  if ((0 <=? v) && (v <? surr1)) || ((surr3 <=? v) && (v <? surrSelf))
  then [v]
  else if (surrSelf <=? v) && (v <=? maxRune)
  then let '(r1, r2) := EncodeRune v in [r1; r2]
  else [replacementChar].

(** [AppendRune] *)
Definition AppendRune (a : list uint16) (r : rune) : list uint16 :=
  (a ++ encode1 r)%list.

(** [DecodeRune] *)
Definition DecodeRune (r1 r2 : rune) : rune :=
  if (surr1 <=? r1) && (r1 <? surr2) && (surr2 <=? r2) && (r2 <? surr3)
  then Z.lor (Z.shiftl (r1 - surr1) 10) (r2 - surr2) + surrSelf
  else replacementChar.

End utf16.

(** ** The package's data *)

(** The flags for the [Flags] member of [TagOFNA]. *)
Definition AllowMultiSelect : Z := 0x00000200.
Definition CreatePrompt : Z := 0x00002000.
Definition DontAddToRecent : Z := 0x02000000.
Definition EnableHook : Z := 0x00000020.
Definition EnableIncludeNotify : Z := 0x00400000.
Definition EnableSizing : Z := 0x00800000.
Definition EnableTemplate : Z := 0x00000040.
Definition EnableTemplateHandle : Z := 0x00000080.
Definition Explorer : Z := 0x00080000.
Definition ExtensionDifferent : Z := 0x00000400.
Definition FileMustExist : Z := 0x00001000.
Definition ForceShowHidden : Z := 0x10000000.
Definition HideReadOnly : Z := 0x00000004.
Definition LongNames : Z := 0x00200000.
Definition NoChangeDir : Z := 0x00000008.
Definition NoDereferenceLinks : Z := 0x00100000.
Definition NoLongNames : Z := 0x00040000.
Definition NoNetworkButton : Z := 0x00020000.
Definition NoReadOnlyReturn : Z := 0x00008000.
Definition NoTestFileCreate : Z := 0x00010000.
Definition NoValidate : Z := 0x00000100.
Definition OverwritePrompt : Z := 0x00000002.
Definition PathMustExist : Z := 0x00000800.
Definition ReadOnly : Z := 0x00000001.
Definition ShareAware : Z := 0x00004000.
Definition ShowHelp : Z := 0x00000010.

(** Every flag the package declares, in the order of the source. *)
Definition all_flags : list Z :=
  [ AllowMultiSelect; CreatePrompt; DontAddToRecent; EnableHook;
    EnableIncludeNotify; EnableSizing; EnableTemplate; EnableTemplateHandle;
    Explorer; ExtensionDifferent; FileMustExist; ForceShowHidden;
    HideReadOnly; LongNames; NoChangeDir; NoDereferenceLinks; NoLongNames;
    NoNetworkButton; NoReadOnlyReturn; NoTestFileCreate; NoValidate;
    OverwritePrompt; PathMustExist; ReadOnly; ShareAware; ShowHelp ].

(** [TagOFNA]: a [*uint16] member is the buffer it points into, an
    [unsafe.Pointer] or [uintptr] member is the address as a number. *)
Record TagOFNA : Type := mkTagOFNA {
  LStructSize : Z;
  HwndOwner : Z;
  HInstance : Z;
  LpstrFilter : option (list uint16);
  LpstrCustomFilter : option (list uint16);
  NMaxCustFilter : Z;
  NFilterIndex : Z;
  LpstrFile : option (list uint16);
  NMaxFile : Z;
  LpstrFileTitle : option (list uint16);
  NMaxFileTitle : Z;
  LpstrInitialDir : option (list uint16);
  LpstrTitle : option (list uint16);
  Flags : Z;
  NFileOffset : Z;
  NFileExtension : Z;
  LpstrDefExt : option (list uint16);
  LCustData : Z;
  LpfnHook : Z;
  LpTemplateName : option (list uint16);
  PvReserved : Z;
  DwReserved : Z;
  FlagsEx : Z
}.

(** The assignments [ofn.LpstrFile = p] and [ofn.NMaxFile = n]. *)
Definition set_LpstrFile (ofn : TagOFNA) (p : option (list uint16)) : TagOFNA :=
  mkTagOFNA (LStructSize ofn) (HwndOwner ofn) (HInstance ofn) (LpstrFilter ofn)
    (LpstrCustomFilter ofn) (NMaxCustFilter ofn) (NFilterIndex ofn) p
    (NMaxFile ofn) (LpstrFileTitle ofn) (NMaxFileTitle ofn)
    (LpstrInitialDir ofn) (LpstrTitle ofn) (Flags ofn) (NFileOffset ofn)
    (NFileExtension ofn) (LpstrDefExt ofn) (LCustData ofn) (LpfnHook ofn)
    (LpTemplateName ofn) (PvReserved ofn) (DwReserved ofn) (FlagsEx ofn).

Definition set_NMaxFile (ofn : TagOFNA) (n : Z) : TagOFNA :=
  mkTagOFNA (LStructSize ofn) (HwndOwner ofn) (HInstance ofn) (LpstrFilter ofn)
    (LpstrCustomFilter ofn) (NMaxCustFilter ofn) (NFilterIndex ofn)
    (LpstrFile ofn) n (LpstrFileTitle ofn) (NMaxFileTitle ofn)
    (LpstrInitialDir ofn) (LpstrTitle ofn) (Flags ofn) (NFileOffset ofn)
    (NFileExtension ofn) (LpstrDefExt ofn) (LCustData ofn) (LpfnHook ofn)
    (LpTemplateName ofn) (PvReserved ofn) (DwReserved ofn) (FlagsEx ofn).

(** Not in the source: the same structure with another [Flags] word, to
    compare what the two dialog functions pass to the system. *)
Definition with_Flags (ofn : TagOFNA) (f : Z) : TagOFNA :=
  mkTagOFNA (LStructSize ofn) (HwndOwner ofn) (HInstance ofn) (LpstrFilter ofn)
    (LpstrCustomFilter ofn) (NMaxCustFilter ofn) (NFilterIndex ofn)
    (LpstrFile ofn) (NMaxFile ofn) (LpstrFileTitle ofn) (NMaxFileTitle ofn)
    (LpstrInitialDir ofn) (LpstrTitle ofn) f (NFileOffset ofn)
    (NFileExtension ofn) (LpstrDefExt ofn) (LCustData ofn) (LpfnHook ofn)
    (LpTemplateName ofn) (PvReserved ofn) (DwReserved ofn) (FlagsEx ofn).

(** [unsafe.Sizeof]: the Go compiler lays the members out in order, each
    at the next multiple of its alignment, and rounds the total up to the
    largest alignment.  The members of [TagOFNA] are of four kinds, each
    aligned to its own size. *)
Inductive GOARCH : Type := GOARCH_386 | GOARCH_amd64 | GOARCH_arm | GOARCH_arm64.

Definition PtrSize (arch : GOARCH) : Z :=
  match arch with
  | GOARCH_386 | GOARCH_arm => 4
  | GOARCH_amd64 | GOARCH_arm64 => 8
  end.

Inductive kind : Type := Uint16 | Uint32 | Uintptr | Pointer.

Definition kind_size (arch : GOARCH) (k : kind) : Z :=
  match k with
  | Uint16 => 2
  | Uint32 => 4
  | Uintptr | Pointer => PtrSize arch
  end.

Definition TagOFNA_members : list kind :=
  [ Uint32; Pointer; Pointer; Pointer; Pointer; Uint32; Uint32; Pointer;
    Uint32; Pointer; Uint32; Pointer; Pointer; Uint32; Uint16; Uint16;
    Pointer; Uintptr; Uintptr; Pointer; Pointer; Uint32; Uint32 ].

Definition align_up (off a : Z) : Z := (off + a - 1) / a * a.

Definition Sizeof_struct (arch : GOARCH) (members : list kind) : Z :=
  let '(off, al) :=
    fold_left (fun '(off, al) k =>
                 let sz := kind_size arch k in
                 (align_up off sz + sz, Z.max al sz))
              members (0, 1) in
  align_up off al.

Definition Sizeof_TagOFNA (arch : GOARCH) : Z := Sizeof_struct arch TagOFNA_members.

(** The conversion [uint32(x)]. *)
Definition to_uint32 (x : Z) : Z := x mod 2^32.
(** The conversion [uint16(r)]. *)
Definition to_uint16 (x : Z) : Z := x mod 2^16.
(** A rune literal such as ['|']. *)
Definition rune_lit (c : ascii) : rune := byte_of_ascii c.

(** [Filter] and [FileFilter] *)
Record Filter : Type := mkFilter { Name : string; Pattern : string }.
Definition FileFilter := list Filter.

(** ** Running code: results, panics and calls into comdlg32.dll *)

Inductive Proc : Type := procGetSaveFileName | procGetOpenFileName.

(** What a call leaves behind: the first result of [Call] and the
    contents of the buffer [LpstrFile] points into. *)
Record Reply : Type := mkReply { ret : Z; file : list uint16 }.

Inductive Exec (A : Type) : Type :=
| Done (a : A)
| Panic
| Call (p : Proc) (ofn : TagOFNA) (k : Reply -> Exec A).
Arguments Done {A} a.
Arguments Panic {A}.
Arguments Call {A} p ofn k.

Fixpoint bind {A B : Type} (e : Exec A) (f : A -> Exec B) : Exec B :=
  match e with
  | Done a => f a
  | Panic => Panic
  | Call p ofn k => Call p ofn (fun r => bind (k r) f)
  end.

Notation "x <- e ;; k" := (bind e (fun x => k))
  (at level 61, e at next level, right associativity).
Notation "' pat <- e ;; k" := (bind e (fun x => match x with pat => k end))
  (at level 61, pat pattern, e at next level, right associativity).

(** [&a[i]]: the buffer from index [i] on; the index expression panics
    when [i] is out of range. *)
Definition elem_ptr (a : list uint16) (i : nat) : Exec (list uint16) :=
  if (i <? List.length a)%nat then Done (skipn i a) else Panic.

(** [make([]uint16, n)] *)
Definition make (n : nat) : list uint16 := repeat 0 n.

(** The system, as a stub: what each entry point answers to each
    structure. *)
Definition System := Proc -> TagOFNA -> Reply.

Inductive outcome (A : Type) : Type :=
| Returned (a : A)
| Panicked.
Arguments Returned {A} a.
Arguments Panicked {A}.

(** [run os e] is the outcome of [e] against [os] and the calls it made,
    in order. *)
Fixpoint run {A : Type} (os : System) (e : Exec A)
  : outcome A * list (Proc * TagOFNA) :=
  match e with
  | Done a => (Returned a, [])
  | Panic => (Panicked, [])
  | Call p ofn k =>
    let '(o, calls) := run os (k (os p ofn)) in (o, (p, ofn) :: calls)
  end.

(** ** The parts of packages strings and syscall the source calls *)
Module strings.

(** A [strings.Builder] is the bytes written so far. *)
Definition Builder := string.
Definition zero : Builder := EmptyString.
Definition WriteString (sb : Builder) (s : string) : Builder := sb ++ s.
Definition WriteRune (sb : Builder) (r : rune) : Builder :=
  sb ++ utf8.string_of_runes [r].
Definition String (sb : Builder) : string := sb.

(** [IndexByte]: the index of the first byte [c] of [s], or -1. *)
Fixpoint IndexByte_from (i : Z) (s : list Z) (c : Z) : Z :=
  match s with
  | [] => -1
  | b :: r => if b =? c then i else IndexByte_from (i + 1) r c
  end.
Definition IndexByte (s : string) (c : Z) : Z := IndexByte_from 0 (bytes s) c.

(** [ContainsRune] is [IndexRune(s, r) >= 0].  For a rune below
    [utf8.RuneSelf], which is how the source calls it, [IndexRune] is
    [IndexByte]; the other runes are looked up among the decoded runes
    of [s]. *)
Definition ContainsRune (s : string) (r : rune) : bool :=
  if (0 <=? r) && (r <? utf8.runeSelf)
  then 0 <=? IndexByte s (utf8.byte r)
  else existsb (Z.eqb r) (utf8.runes (bytes s)).

End strings.

Module syscall.

(** One turn of the loop of [encodeWTF16] (wtf8_windows.go) on the rest
    [s] of the string: the slice appended to and the number of bytes
    passed.  A surrogate written in three bytes, which is no UTF-8 and
    reads as [RuneError], is kept as that surrogate. *)
Definition encodeWTF16_step (s : list Z) (buf : list uint16)
  : list uint16 * nat :=
  let '(r, size) := utf8.decoderune s in
  let plain := (utf16.AppendRune buf r, size) in
  if r =? utf8.runeError then
    match s with
    | sc0 :: sc1 :: sc2 :: _ =>
      if (sc0 =? 0xED) && (0xA0 <=? sc1) && (sc1 <=? 0xBF)
         && (0x80 <=? sc2) && (sc2 <=? 0xBF)
      then
        let r := Z.shiftl (Z.land sc0 utf8.mask3) 12
                 + Z.shiftl (Z.land sc1 utf8.maskx) 6
                 + Z.land sc2 utf8.maskx in
        ((buf ++ [to_uint16 r])%list, 3%nat)
      else plain
    | _ => plain
    end
  else plain.

(** [for i := 0; i < len(s); ]: every turn passes at least one byte, so
    the length of [s] is fuel enough. *)
Fixpoint encodeWTF16_loop (fuel : nat) (s : list Z) (buf : list uint16)
  : list uint16 :=
  match fuel with
  | O => buf
  | S n =>
    match s with
    | [] => buf
    | _ =>
      let '(buf', adv) := encodeWTF16_step s buf in
      encodeWTF16_loop n (skipn adv s) buf'
    end
  end.

(** [encodeWTF16] *)
Definition encodeWTF16 (s : string) (buf : list uint16) : list uint16 :=
  encodeWTF16_loop (List.length (bytes s)) (bytes s) buf.

(** [decodeWTF16]: the WTF-8 of UTF-16 that may be ill-formed.  A pair
    is one rune; a surrogate with no partner is written in the three
    bytes of its own value. *)
Fixpoint decodeWTF16 (s : list uint16) (buf : list Z) : list Z :=
  match s with
  | [] => buf
  | r :: rest =>
    let fallback :=
      let ar := if utf8.maxRune <? r then utf8.runeError else r in
      (buf ++ [ Z.lor utf8.t3 (utf8.byte (Z.shiftr ar 12));
                Z.lor utf8.tx (Z.land (utf8.byte (Z.shiftr ar 6)) utf8.maskx);
                Z.lor utf8.tx (Z.land (utf8.byte ar) utf8.maskx) ])%list in
    if (r <? utf16.surr1) || (utf16.surr3 <=? r)
    then decodeWTF16 rest (utf8.AppendRune buf r)
    else
      match rest with
      | r2 :: rest' =>
        if (utf16.surr1 <=? r) && (r <? utf16.surr2)
           && (utf16.surr2 <=? r2) && (r2 <? utf16.surr3)
        then decodeWTF16 rest' (utf8.AppendRune buf (utf16.DecodeRune r r2))
        else decodeWTF16 rest fallback
      | [] => decodeWTF16 rest fallback
      end
  end.

(** [UTF16FromString]: the UTF-16 of [s] with a terminating NUL added;
    [EINVAL] and no slice when [s] has a NUL byte anywhere. *)
Definition UTF16FromString (s : string) : list uint16 * option error :=
  if negb (strings.IndexByte s 0 =? -1) then ([], Some EINVAL)
  else ((encodeWTF16 s [] ++ [0])%list, None).

(** [UTF16PtrFromString] *)
Definition UTF16PtrFromString (s : string)
  : Exec (option (list uint16) * option error) :=
  let '(a, err) := UTF16FromString s in
  match err with
  | Some e => Done (None, Some e)
  | None => p <- elem_ptr a 0 ;; Done (Some p, None)
  end.

(** [UTF16ToString]: the units before the first NUL, decoded. *)
Fixpoint until_NUL (s : list uint16) : list uint16 :=
  match s with
  | [] => []
  | v :: r => if v =? 0 then [] else v :: until_NUL r
  end.

Definition UTF16ToString (s : list uint16) : string :=
  string_of_bytes (decodeWTF16 (until_NUL s) []).

End syscall.

(** ** FileFilter.ToRaw *)

(** The loop over the filters.  It leaves by [inr] at the first pattern
    with a space, with the builder's contents by [inl] otherwise. *)
Fixpoint ToRaw_range (ff : FileFilter) (sb : strings.Builder)
  : strings.Builder + error :=
  match ff with
  | [] => inl sb
  | f :: rest =>
    let sb := strings.WriteString sb (Name f) in
    let sb := strings.WriteRune sb (rune_lit "|") in
    if strings.ContainsRune (Pattern f) (rune_lit " ")
    then inr (Errorf "pattern contains a space")
    else
      let sb := strings.WriteString sb (Pattern f) in
      let sb := strings.WriteRune sb (rune_lit "|") in
      ToRaw_range rest sb
  end.

(** [ptr[i] = v], for [i] in range. *)
Definition set_index (ptr : list uint16) (i : nat) (v : uint16) : list uint16 :=
  firstn i ptr ++ v :: skipn (S i) ptr.

(** The loop [for i := range ptr] that turns every ['|'] unit into 0. *)
Definition ToRaw_separators (ptr : list uint16) : list uint16 :=
  fold_left (fun ptr i =>
               if nth i ptr 0 =? to_uint16 (rune_lit "|")
               then set_index ptr i (to_uint16 0) else ptr)
            (seq 0 (List.length ptr)) ptr.

Definition ToRaw (ff : FileFilter) : Exec (option (list uint16) * option error) :=
  match ToRaw_range ff strings.zero with
  | inr err => Done (None, Some err)
  | inl sb =>
    let sb := strings.WriteRune sb (rune_lit "|") in
    match syscall.UTF16FromString (strings.String sb) with
    | (_, Some err) => Done (None, Some err)
    | (ptr, None) =>
      let ptr := ToRaw_separators ptr in
      p <- elem_ptr ptr 0 ;; Done (Some p, None)
    end
  end.

(** ** NewTagOFNA and the two dialog functions *)

Section Dialogs.

Variable arch : GOARCH.

Definition NewTagOFNA (parentHWND : Z) (title : string) (filter : FileFilter)
           (initialDir : string) (flags : Z)
  : Exec (option TagOFNA * option error) :=
  let lStructSize := to_uint32 (Sizeof_TagOFNA arch) in
  '(lpstrTitle, err) <- syscall.UTF16PtrFromString title ;;
  match err with
  | Some e => Done (None, Some e)
  | None =>
    '(lpstrFilter, err) <- ToRaw filter ;;
    match err with
    | Some e => Done (None, Some e)
    | None =>
      '(lpstrInitialDir, err) <- syscall.UTF16PtrFromString initialDir ;;
      match err with
      | Some e => Done (None, Some e)
      | None =>
        Done (Some {| LStructSize := lStructSize;
                      HwndOwner := parentHWND;
                      HInstance := 0;
                      LpstrFilter := lpstrFilter;
                      LpstrCustomFilter := None;
                      NMaxCustFilter := 0;
                      NFilterIndex := 0;
                      LpstrFile := None;
                      NMaxFile := 0;
                      LpstrFileTitle := None;
                      NMaxFileTitle := 0;
                      LpstrInitialDir := lpstrInitialDir;
                      LpstrTitle := lpstrTitle;
                      Flags := flags;
                      NFileOffset := 0;
                      NFileExtension := 0;
                      LpstrDefExt := None;
                      LCustData := 0;
                      LpfnHook := 0;
                      LpTemplateName := None;
                      PvReserved := 0;
                      DwReserved := 0;
                      FlagsEx := 0 |}, None)
      end
    end
  end.

(** A nil [*TagOFNA] cannot be written through. *)
Definition deref (p : option TagOFNA) : Exec TagOFNA :=
  match p with
  | Some ofn => Done ofn
  | None => Panic
  end.

Definition GetOpenFileName (parentHWND : Z) (title : string)
           (filter : FileFilter) (initialDir : string)
  : Exec (string * bool * option error) :=
  let flags := Z.lor (Z.lor FileMustExist HideReadOnly) PathMustExist in
  '(ofn, err) <- NewTagOFNA parentHWND title filter initialDir flags ;;
  match err with
  | Some e => Done (EmptyString, false, Some e)
  | None =>
    let buf := make 1024 in
    ofn <- deref ofn ;;
    p <- elem_ptr buf 0 ;;
    let ofn := set_LpstrFile ofn (Some p) in
    let ofn := set_NMaxFile ofn 1024 in
    Call procGetOpenFileName ofn (fun reply =>
      if ret reply =? 0 then Done (EmptyString, false, None)
      else
        let str := syscall.UTF16ToString (file reply) in
        Done (str, true, None))
  end.

Definition GetSaveFileName (parentHWND : Z) (title : string)
           (filter : FileFilter) (initialDir : string)
  : Exec (string * bool * option error) :=
  let flags := Z.lor HideReadOnly PathMustExist in
  '(ofn, err) <- NewTagOFNA parentHWND title filter initialDir flags ;;
  match err with
  | Some e => Done (EmptyString, false, Some e)
  | None =>
    let buf := make 1024 in
    ofn <- deref ofn ;;
    p <- elem_ptr buf 0 ;;
    let ofn := set_LpstrFile ofn (Some p) in
    let ofn := set_NMaxFile ofn 1024 in
    Call procGetSaveFileName ofn (fun reply =>
      if ret reply =? 0 then Done (EmptyString, false, None)
      else
        let str := syscall.UTF16ToString (file reply) in
        Done (str, true, None))
  end.

End Dialogs.


(** ** Vocabulary of the statements (not in the source) *)

(** [contains s c]: the byte [c] occurs in the Go string [s]. *)
Definition contains (s : string) (c : ascii) : bool :=
  existsb (Z.eqb (byte_of_ascii c)) (bytes s).

Definition NUL : ascii := Ascii.zero.

(** The UTF-16 units of a Go string, without terminator. *)
Definition enc (s : string) : list uint16 := syscall.encodeWTF16 s [].

(** The UTF-16 units of a sequence of bytes. *)
Definition units (l : list Z) : list uint16 :=
  syscall.encodeWTF16_loop (List.length l) l [].

(** The number of units of [l] equal to [c]. *)
Definition count (c : Z) (l : list Z) : nat := count_occ Z.eq_dec l c.

(** The number of bytes ['|'] in the names and patterns of [ff]. *)
Definition bars (ff : FileFilter) : nat :=
  list_sum (map (fun f => (count 124 (bytes (Name f)) + count 124 (bytes (Pattern f)))%nat) ff).

(** The contents of the builder when [ToRaw] converts it. *)
Definition built (ff : FileFilter) : string :=
  List.fold_right (fun f acc => Name f ++ "|" ++ Pattern f ++ "|" ++ acc) "|" ff.

(** What the second loop of [ToRaw] does to one unit. *)
Definition sep0 (u : uint16) : uint16 := if u =? 124 then 0 else u.

(** The fields of a filter list, each followed by one terminator unit. *)
Definition packed (ff : FileFilter) : list uint16 :=
  flat_map (fun f => enc (Name f) ++ [0] ++ enc (Pattern f) ++ [0])%list ff.

(** Some pattern of [ff] has a space; some name or pattern of [ff] has a
    NUL byte; some name or pattern of [ff] has a ['|']. *)
Definition has_space (ff : FileFilter) : bool :=
  existsb (fun f => contains (Pattern f) " ") ff.
Definition has_NUL (ff : FileFilter) : bool :=
  existsb (fun f => contains (Name f) NUL || contains (Pattern f) NUL) ff.
Definition has_bar (ff : FileFilter) : bool :=
  existsb (fun f => contains (Name f) "|" || contains (Pattern f) "|") ff.

(** The first error the conversions of [NewTagOFNA] meet, in the order it
    makes them: title, filters, initial directory. *)
Definition encode_error (title : string) (ff : FileFilter) (initialDir : string)
  : option error :=
  if contains title NUL then Some EINVAL
  else if has_space ff then Some (Errorf "pattern contains a space")
  else if has_NUL ff then Some EINVAL
  else if contains initialDir NUL then Some EINVAL
  else None.

(** The flag words of the two dialog functions. *)
Definition open_flags : Z := Z.lor (Z.lor FileMustExist HideReadOnly) PathMustExist.
Definition save_flags : Z := Z.lor HideReadOnly PathMustExist.

(** The structure [NewTagOFNA] makes once the three conversions have
    succeeded, and the one the dialog functions pass on after wiring the
    output buffer in. *)
Definition new_ofn (arch : GOARCH) (parentHWND : Z) (title : string)
           (ff : FileFilter) (initialDir : string) (flags : Z) : TagOFNA :=
  {| LStructSize := to_uint32 (Sizeof_TagOFNA arch);
     HwndOwner := parentHWND;
     HInstance := 0;
     LpstrFilter := Some (map sep0 (enc (built ff)) ++ [0])%list;
     LpstrCustomFilter := None;
     NMaxCustFilter := 0;
     NFilterIndex := 0;
     LpstrFile := None;
     NMaxFile := 0;
     LpstrFileTitle := None;
     NMaxFileTitle := 0;
     LpstrInitialDir := Some (enc initialDir ++ [0])%list;
     LpstrTitle := Some (enc title ++ [0])%list;
     Flags := flags;
     NFileOffset := 0;
     NFileExtension := 0;
     LpstrDefExt := None;
     LCustData := 0;
     LpfnHook := 0;
     LpTemplateName := None;
     PvReserved := 0;
     DwReserved := 0;
     FlagsEx := 0 |}.

Definition passed_ofn (arch : GOARCH) (parentHWND : Z) (title : string)
           (ff : FileFilter) (initialDir : string) (flags : Z) : TagOFNA :=
  set_NMaxFile
    (set_LpstrFile (new_ofn arch parentHWND title ff initialDir flags)
                   (Some (make 1024)))
    1024.

(** What both dialog functions do with the reply of the system. *)
Definition after_call (reply : Reply) : Exec (string * bool * option error) :=
  if ret reply =? 0 then Done (EmptyString, false, None)
  else
    let str := syscall.UTF16ToString (file reply) in
    Done (str, true, None).

(** [GetOpenFileName]'s run turned into a save: the other entry point
    and the other flag word, everything else as it is. *)
Definition as_save {A : Type} (e : Exec A) : Exec A :=
  match e with
  | Call procGetOpenFileName ofn k =>
    Call procGetSaveFileName (with_Flags ofn save_flags) k
  | e => e
  end.

(** The layout in the words of the specification: every name and pattern
    followed by one terminator, and exactly one terminator more. *)
Definition spec_layout (ff : FileFilter) : list uint16 := (packed ff ++ [0])%list.

(** The filters of the specification's example, and a system that
    declines every dialog, one that answers a path. *)
Definition ex_filters : FileFilter :=
  [ mkFilter "Text Files" "*.txt"; mkFilter "All Files" "*.*" ].
Definition os_cancel : System := fun _ _ => mkReply 0 (make 1024).
Definition os_pick : System :=
  fun _ _ => mkReply 1 (enc "C:\a.txt" ++ [0; 66; 0] ++ make 1013)%list.

(** The values a [uint16] can have. *)
Definition is_uint16 (u : Z) : Prop := 0 <= u < 2^16.

(** All bytes of [s] are ASCII. *)
Definition ascii_only (s : string) : bool :=
  forallb (fun b => b <? 0x80) (bytes s).

(** Decoding in the words of the Unicode standard, to compare
    [UTF16ToString] with.  The code points that UTF-16 units stand for:
    a high surrogate followed by a low one is the code point of the
    pair, any other unit is its own value, also a surrogate with no
    partner. *)
Fixpoint spec_code_points (a : list uint16) : list rune :=
  match a with
  | [] => []
  | u :: rest =>
    match rest with
    | v :: rest' =>
      if (0xD800 <=? u) && (u <? 0xDC00) && (0xDC00 <=? v) && (v <? 0xE000)
      then 0x10000 + (u - 0xD800) * 1024 + (v - 0xDC00) :: spec_code_points rest'
      else u :: spec_code_points rest
    | [] => u :: spec_code_points rest
    end
  end.

(** The one to four bytes of a code point in UTF-8, a surrogate written
    like any other three-byte value. *)
Definition spec_utf8 (r : rune) : list Z :=
  if r <? 0x80 then [r]
  else if r <? 0x800 then [192 + r / 64; 128 + r mod 64]
  else if r <? 0x10000
  then [224 + r / 4096; 128 + (r / 64) mod 64; 128 + r mod 64]
  else [240 + r / 262144; 128 + (r / 4096) mod 64; 128 + (r / 64) mod 64;
        128 + r mod 64].

(** The text of a sequence of code points. *)
Definition text (rs : list rune) : string :=
  string_of_bytes (flat_map spec_utf8 rs).

(** A Unicode scalar value: a code point that is no surrogate. *)
Definition scalar (r : rune) : Prop :=
  0 <= r < 0xD800 \/ 0xE000 <= r <= 0x10FFFF.

(** The results and the calls of a run. *)
Definition result {A : Type} (os : System) (e : Exec A) : outcome A := fst (run os e).
Definition calls {A : Type} (os : System) (e : Exec A) : list (Proc * TagOFNA) :=
  snd (run os e).

(** ** Vocabulary of the further properties (not in the source) *)

(** The flag word a caller makes of a selection of flags, [a | b | ...]. *)
Definition or_flags (l : list Z) : Z := fold_right Z.lor 0 l.

(** The contents of the builder when the first loop of [ToRaw] is over. *)
Definition body (ff : FileFilter) : string :=
  List.fold_right (fun f acc => Name f ++ "|" ++ Pattern f ++ "|" ++ acc)
                  EmptyString ff.

(** Case analysis on the condition of a conditional of the goal. *)
Ltac case_if :=
  match goal with
  | |- context [if ?b then _ else _] => destruct b eqn:?
  end.

(** * Properties *)

(** ** Bytes and strings *)

Lemma bytes_app (a b : string) : bytes (a ++ b) = (bytes a ++ bytes b)%list.
Proof.
  induction a as [|c a IH]; simpl; [reflexivity|]. now rewrite IH.
Qed.

Lemma byte_of_ascii_range (c : ascii) : 0 <= byte_of_ascii c < 256.
Proof.
  unfold byte_of_ascii.
  pose proof (N_ascii_bounded c) as H. lia.
Qed.

Lemma bytes_range (s : string) : Forall (fun b => 0 <= b < 256) (bytes s).
Proof.
  induction s; simpl; constructor; auto using byte_of_ascii_range.
Qed.

Lemma IndexByte_from_spec (s : list Z) (c i : Z) :
  0 <= i -> (0 <=? strings.IndexByte_from i s c) = existsb (Z.eqb c) s.
Proof.
  revert i. induction s as [|b s IH]; intros i Hi; simpl.
  - reflexivity.
  - rewrite (Z.eqb_sym c b). destruct (b =? c).
    + simpl. now apply Z.leb_le.
    + simpl. apply IH. lia.
Qed.

Lemma IndexByte_contains (s : string) (c : ascii) :
  (0 <=? strings.IndexByte s (byte_of_ascii c)) = contains s c.
Proof. unfold strings.IndexByte, contains. now apply IndexByte_from_spec. Qed.

Lemma ContainsRune_space (s : string) :
  strings.ContainsRune s (rune_lit " ") = contains s " ".
Proof.
  unfold strings.ContainsRune. change (rune_lit " ") with 32.
  change ((0 <=? 32) && (32 <? utf8.runeSelf)) with true. cbv iota.
  change (utf8.byte 32) with (byte_of_ascii " "). apply IndexByte_contains.
Qed.

Lemma contains_app (a b : string) (c : ascii) :
  contains (a ++ b) c = contains a c || contains b c.
Proof. unfold contains. now rewrite bytes_app, existsb_app. Qed.

Lemma contains_count (s : string) (c : ascii) :
  contains s c = false <-> count (byte_of_ascii c) (bytes s) = 0%nat.
Proof.
  unfold contains, count. generalize (bytes s) as l.
  induction l as [|b l IH]; simpl; [tauto|].
  destruct (Z.eq_dec b (byte_of_ascii c)) as [->|Hne].
  - rewrite Z.eqb_refl. simpl. split; discriminate.
  - assert ((byte_of_ascii c =? b) = false) as -> by (apply Z.eqb_neq; congruence).
    simpl. exact IH.
Qed.

Lemma count_app (c : Z) (a b : list Z) :
  count c (a ++ b) = (count c a + count c b)%nat.
Proof. apply count_occ_app. Qed.

(** ** Decoding UTF-8 *)

Lemma decoderune_width (s : list Z) :
  s <> [] ->
  (1 <= snd (utf8.decoderune s) <= List.length s)%nat.
Proof.
  intros Hs. destruct s as [|s0 [|s1 [|s2 [|s3 r]]]]; [congruence| | | |];
    unfold utf8.decoderune; repeat case_if; simpl; lia.
Qed.

(** A byte that continues no sequence cuts the decoding of what is
    before it. *)
Lemma decoderune_app_sep (a b : list Z) (c : Z) :
  a <> [] -> utf8.cont c = false ->
  utf8.decoderune (a ++ c :: b) = utf8.decoderune a.
Proof.
  intros Ha Hc.
  destruct a as [|s0 [|s1 [|s2 [|s3 r]]]]; [congruence| | | |];
    cbn [app]; unfold utf8.decoderune;
    rewrite ?Hc, ?andb_false_r; repeat case_if; try reflexivity;
    destruct b as [|b0 [|b1 b]];
    rewrite ?Hc, ?andb_false_r; cbn [andb]; reflexivity.
Qed.

(** The rune at the head of a string is its first byte when that byte is
    ASCII; otherwise it is above the ASCII range and so is every byte it
    takes. *)
Lemma decoderune_cases (s0 : Z) (r0 : list Z) :
  let s := s0 :: r0 in
  let '(r, w) := utf8.decoderune s in
  (s0 < 0x80 /\ r = s0 /\ w = 1%nat) \/
  (0x7F < r /\ Forall (fun b => 0x80 <= b) (firstn w s)).
Proof.
  cbv zeta. destruct (utf8.decoderune (s0 :: r0)) as [r w] eqn:E.
  unfold utf8.decoderune in E.
  destruct (s0 <? utf8.runeSelf) eqn:Hs0.
  - left. apply Z.ltb_lt in Hs0. unfold utf8.runeSelf in Hs0.
    injection E as <- <-. auto.
  - right. apply Z.ltb_ge in Hs0. unfold utf8.runeSelf in Hs0.
    assert (forall l, Forall (fun b => 0x80 <= b) (firstn 1 (s0 :: l))) as H1.
    { intros l. cbn. constructor; [lia|constructor]. }
    assert (0x7F < utf8.runeError) as HE by (unfold utf8.runeError; lia).
    destruct r0 as [|s1 [|s2 [|s3 l]]];
      repeat match type of E with
             | context [if ?b then _ else _] => destruct b eqn:?
             end;
      apply pair_equal_spec in E; destruct E as [<- <-];
      try (split; [exact HE | apply H1]);
      repeat match goal with
             | H : _ && _ = true |- _ => apply andb_true_iff in H; destruct H
             | H : utf8.cont _ = true |- _ => unfold utf8.cont in H
             | H : (_ <? _) = true |- _ => apply Z.ltb_lt in H
             | H : (_ <=? _) = true |- _ => apply Z.leb_le in H
             end;
      unfold utf8.locb, utf8.hicb in *;
      (split;
       [ unfold utf8.rune1Max, utf8.rune2Max, utf8.rune3Max in *; lia
       | cbn [firstn]; repeat constructor; lia ]).
Qed.

(** ** Encoding UTF-16 *)

Lemma encode1_ascii (c : Z) : 0 <= c < 0x80 -> utf16.encode1 c = [c].
Proof.
  intros Hc. unfold utf16.encode1, utf16.surr1.
  assert ((0 <=? c) = true) as -> by (apply Z.leb_le; lia).
  assert ((c <? 55296) = true) as -> by (apply Z.ltb_lt; lia).
  reflexivity.
Qed.

(** A rune above the ASCII range encodes to units above it. *)
Lemma encode1_high (r : rune) :
  0x7F < r -> Forall (fun u => 0x80 <= u) (utf16.encode1 r).
Proof.
  intros Hr. unfold utf16.encode1, utf16.EncodeRune.
  repeat case_if; repeat constructor; try lia.
  - pose proof (Z.land_nonneg (Z.shiftr (r - utf16.surrSelf) 10) 0x3ff).
    unfold utf16.surr1. lia.
  - pose proof (Z.land_nonneg (r - utf16.surrSelf) 0x3ff).
    unfold utf16.surr2. lia.
  - unfold utf16.replacementChar. lia.
Qed.

Lemma count_high (c : Z) (l : list Z) :
  c < 0x80 -> Forall (fun u => 0x80 <= u) l -> count c l = 0%nat.
Proof.
  intros Hc Hl. unfold count. apply count_occ_not_In.
  intros Hin. rewrite Forall_forall in Hl. specialize (Hl _ Hin). lia.
Qed.

(** ** Encoding to UTF-16, turn by turn *)

Lemma encodeWTF16_step_buf (s : list Z) (buf : list uint16) :
  syscall.encodeWTF16_step s buf
  = ((buf ++ fst (syscall.encodeWTF16_step s []))%list,
     snd (syscall.encodeWTF16_step s [])).
Proof.
  unfold syscall.encodeWTF16_step, utf16.AppendRune.
  destruct (utf8.decoderune s) as [r size].
  destruct (r =? utf8.runeError); [|reflexivity].
  destruct s as [|sc0 [|sc1 [|sc2 l]]]; try reflexivity.
  case_if; reflexivity.
Qed.

Lemma encodeWTF16_step_width (s : list Z) (buf : list uint16) :
  s <> [] ->
  (1 <= snd (syscall.encodeWTF16_step s buf) <= List.length s)%nat.
Proof.
  intros Hs. pose proof (decoderune_width s Hs) as Hw.
  unfold syscall.encodeWTF16_step.
  destruct (utf8.decoderune s) as [r size]. cbn [snd] in Hw.
  destruct (r =? utf8.runeError); [|exact Hw].
  destruct s as [|sc0 [|sc1 [|sc2 l]]]; try exact Hw.
  case_if; [cbn [snd List.length]; lia | exact Hw].
Qed.

Lemma encodeWTF16_loop_buf (n : nat) (s : list Z) (buf : list uint16) :
  syscall.encodeWTF16_loop n s buf
  = (buf ++ syscall.encodeWTF16_loop n s [])%list.
Proof.
  revert s buf. induction n as [|n IH]; intros s buf;
    [cbn; now rewrite app_nil_r|].
  destruct s as [|s0 r0]; [cbn; now rewrite app_nil_r|].
  cbn [syscall.encodeWTF16_loop].
  rewrite (encodeWTF16_step_buf (s0 :: r0) buf).
  destruct (syscall.encodeWTF16_step (s0 :: r0) []) as [u adv]. cbn [fst snd].
  rewrite (IH _ (buf ++ u)%list), (IH _ ([] ++ u)%list).
  now rewrite app_assoc.
Qed.

(** Any fuel that covers the string gives the same units. *)
Lemma encodeWTF16_loop_fuel (n m : nat) (s : list Z) (buf : list uint16) :
  (List.length s <= n)%nat -> (List.length s <= m)%nat ->
  syscall.encodeWTF16_loop n s buf = syscall.encodeWTF16_loop m s buf.
Proof.
  revert m s buf. induction n as [|n IH]; intros m s buf Hn Hm.
  - destruct s; [|simpl in Hn; lia]. destruct m; reflexivity.
  - destruct s as [|s0 r0]; [destruct m; reflexivity|].
    destruct m as [|m]; [simpl in Hm; lia|].
    cbn [syscall.encodeWTF16_loop].
    pose proof (encodeWTF16_step_width (s0 :: r0) buf ltac:(discriminate)) as Hw.
    destruct (syscall.encodeWTF16_step (s0 :: r0) buf) as [buf' adv].
    cbn [snd] in Hw. pose proof (length_skipn adv (s0 :: r0)) as Hl.
    apply IH; lia.
Qed.

Lemma units_step (s : list Z) :
  s <> [] ->
  units s = (fst (syscall.encodeWTF16_step s [])
             ++ units (skipn (snd (syscall.encodeWTF16_step s [])) s))%list.
Proof.
  intros Hs. destruct s as [|s0 r0]; [congruence|].
  pose proof (encodeWTF16_step_width (s0 :: r0) [] Hs) as Hw.
  unfold units at 1. cbn [List.length syscall.encodeWTF16_loop].
  destruct (syscall.encodeWTF16_step (s0 :: r0) []) as [u adv]. cbn [fst snd] in *.
  rewrite encodeWTF16_loop_buf. f_equal. unfold units.
  pose proof (length_skipn adv (s0 :: r0)) as Hl. cbn [List.length] in Hl.
  apply encodeWTF16_loop_fuel; lia.
Qed.

(** A byte that continues no sequence cuts the turn before it. *)
Lemma encodeWTF16_step_app_sep (a b : list Z) (c : Z) :
  a <> [] -> 0 <= c < 0x80 ->
  syscall.encodeWTF16_step (a ++ c :: b) [] = syscall.encodeWTF16_step a [].
Proof.
  intros Ha Hc.
  assert (utf8.cont c = false) as Hcont.
  { unfold utf8.cont, utf8.locb. apply andb_false_iff. left. apply Z.leb_gt. lia. }
  unfold syscall.encodeWTF16_step.
  rewrite decoderune_app_sep by assumption.
  destruct (utf8.decoderune a) as [r size].
  destruct (r =? utf8.runeError); [|reflexivity].
  assert ((0xA0 <=? c) = false) as H1 by (apply Z.leb_gt; lia).
  assert ((0x80 <=? c) = false) as H2 by (apply Z.leb_gt; lia).
  destruct a as [|x [|y [|z l]]]; [congruence| | |]; cbn [app].
  - destruct b as [|b0 b]; [reflexivity|].
    now rewrite H1, andb_false_r.
  - now rewrite H2, andb_false_r.
  - reflexivity.
Qed.

Lemma units_app_sep (a b : list Z) (c : Z) :
  0 <= c < 0x80 -> units (a ++ c :: b) = (units a ++ c :: units b)%list.
Proof.
  intros Hc. remember (List.length a) as n eqn:Hn. revert a Hn.
  induction n as [n IH] using lt_wf_ind. intros a Hn.
  destruct a as [|s0 r0].
  - cbn [app]. rewrite units_step by discriminate.
    assert (syscall.encodeWTF16_step (c :: b) [] = ([c], 1%nat)) as ->.
    { unfold syscall.encodeWTF16_step, utf8.decoderune, utf8.runeSelf.
      assert ((c <? 128) = true) as -> by (apply Z.ltb_lt; lia).
      assert ((c =? utf8.runeError) = false) as ->
        by (apply Z.eqb_neq; unfold utf8.runeError; lia).
      unfold utf16.AppendRune. now rewrite encode1_ascii. }
    reflexivity.
  - rewrite (units_step ((s0 :: r0) ++ c :: b)) by discriminate.
    rewrite (units_step (s0 :: r0)) by discriminate.
    rewrite encodeWTF16_step_app_sep by (discriminate || assumption).
    pose proof (encodeWTF16_step_width (s0 :: r0) [] ltac:(discriminate)) as Hw.
    destruct (syscall.encodeWTF16_step (s0 :: r0) []) as [u w]. cbn [fst snd] in *.
    rewrite skipn_app.
    replace (w - List.length (s0 :: r0))%nat with 0%nat by lia.
    change (skipn 0 (c :: b)) with (c :: b).
    pose proof (length_skipn w (s0 :: r0)) as Hl.
    rewrite (IH (List.length (skipn w (s0 :: r0)))); [|lia|reflexivity].
    now rewrite <- app_assoc.
Qed.

(** A surrogate kept from its three bytes is a surrogate. *)
Lemma wtf8_surrogate (sc1 sc2 : Z) :
  0xA0 <= sc1 <= 0xBF -> 0x80 <= sc2 <= 0xBF ->
  let r := Z.shiftl (Z.land 0xED utf8.mask3) 12
           + Z.shiftl (Z.land sc1 utf8.maskx) 6 + Z.land sc2 utf8.maskx in
  r = 0xD000 + (sc1 - 128) * 64 + (sc2 - 128) /\ to_uint16 r = r.
Proof.
  intros H1 H2. cbv zeta.
  change (Z.land 0xED utf8.mask3) with 13.
  change utf8.maskx with (Z.ones 6). rewrite !Z.land_ones by lia.
  rewrite !Z.shiftl_mul_pow2 by lia.
  change (2 ^ 6) with 64. change (2 ^ 12) with 4096.
  assert (sc1 mod 64 = sc1 - 128) as -> by (Z.to_euclidean_division_equations; lia).
  assert (sc2 mod 64 = sc2 - 128) as -> by (Z.to_euclidean_division_equations; lia).
  split; [lia|]. unfold to_uint16. apply Z.mod_small.
  change (2 ^ 16) with 65536. lia.
Qed.

(** One turn keeps the number of occurrences of every ASCII character. *)
Lemma encodeWTF16_step_count (c s0 : Z) (r0 : list Z) :
  0 <= c < 0x80 -> 0 <= s0 ->
  let s := s0 :: r0 in
  count c (fst (syscall.encodeWTF16_step s []))
  = count c (firstn (snd (syscall.encodeWTF16_step s [])) s).
Proof.
  intros Hc Hs0. cbv zeta.
  pose proof (decoderune_cases s0 r0) as Hcases. cbv zeta in Hcases.
  unfold syscall.encodeWTF16_step, utf16.AppendRune.
  destruct (utf8.decoderune (s0 :: r0)) as [r w]. cbn [app].
  assert (count c (utf16.encode1 r) = count c (firstn w (s0 :: r0))) as Hplain.
  { destruct Hcases as [(Hlt & -> & ->) | (Hr & Hall)].
    - now rewrite encode1_ascii by lia.
    - rewrite !count_high; auto using encode1_high; lia. }
  destruct (r =? utf8.runeError); [|exact Hplain].
  destruct r0 as [|sc1 [|sc2 l]]; try exact Hplain.
  case_if; [|exact Hplain]. cbn [fst snd firstn].
  repeat match goal with
         | H : _ && _ = true |- _ => apply andb_true_iff in H; destruct H
         | H : (_ =? _) = true |- _ => apply Z.eqb_eq in H
         | H : (_ <=? _) = true |- _ => apply Z.leb_le in H
         end.
  subst s0.
  destruct (wtf8_surrogate sc1 sc2 ltac:(lia) ltac:(lia)) as [Hr Hu].
  cbv zeta in Hr, Hu. rewrite Hu, Hr.
  rewrite !count_high; try reflexivity; try lia; repeat constructor; lia.
Qed.

(** The conversion keeps the number of occurrences of every ASCII
    character: none is made, none is lost. *)
Lemma units_count (c : Z) (s : list Z) :
  0 <= c < 0x80 -> Forall (fun b => 0 <= b) s -> count c (units s) = count c s.
Proof.
  intros Hc. remember (List.length s) as n eqn:Hn. revert s Hn.
  induction n as [n IH] using lt_wf_ind. intros s Hn Hs.
  destruct s as [|s0 r0]; [reflexivity|].
  rewrite units_step by discriminate.
  pose proof (encodeWTF16_step_width (s0 :: r0) [] ltac:(discriminate)) as Hw.
  pose proof (encodeWTF16_step_count c s0 r0 Hc ltac:(now inversion Hs)) as Hstep.
  cbv zeta in Hstep.
  destruct (syscall.encodeWTF16_step (s0 :: r0) []) as [u w]. cbn [fst snd] in *.
  rewrite count_app, Hstep.
  rewrite <- (firstn_skipn w (s0 :: r0)) at 3. rewrite count_app. f_equal.
  pose proof (length_skipn w (s0 :: r0)) as Hl.
  apply (IH (List.length (skipn w (s0 :: r0)))); [lia | reflexivity |].
  rewrite <- (firstn_skipn w (s0 :: r0)) in Hs. apply Forall_app in Hs. tauto.
Qed.

Lemma enc_units (s : string) : enc s = units (bytes s).
Proof. reflexivity. Qed.

Lemma enc_count (c : Z) (s : string) :
  0 <= c < 0x80 -> count c (enc s) = count c (bytes s).
Proof.
  intros Hc. rewrite enc_units. apply units_count; [assumption|].
  eapply Forall_impl; [|apply bytes_range]. cbv beta. intros; lia.
Qed.

(** An ASCII character between two strings stays one unit between their
    encodings. *)
Lemma enc_app_sep (a b : string) (c : ascii) :
  byte_of_ascii c < 0x80 ->
  enc (a ++ String c b) = (enc a ++ byte_of_ascii c :: enc b)%list.
Proof.
  intros Hc. pose proof (byte_of_ascii_range c) as Hr.
  rewrite !enc_units, bytes_app. cbn [bytes]. apply units_app_sep. lia.
Qed.

(** ** The two loops of ToRaw *)

Lemma WriteRune_bar (sb : strings.Builder) :
  strings.WriteRune sb (rune_lit "|") = sb ++ "|".
Proof. reflexivity. Qed.

Lemma string_app_assoc (a b c : string) : (a ++ b) ++ c = a ++ b ++ c.
Proof. induction a as [|x a IH]; simpl; [reflexivity|]. now rewrite IH. Qed.

(** With no space in any pattern the first loop writes every name and
    pattern, each followed by ['|']. *)
Lemma ToRaw_range_ok (ff : FileFilter) (sb : strings.Builder) :
  Forall (fun f => contains (Pattern f) " " = false) ff ->
  exists sb', ToRaw_range ff sb = inl sb' /\ sb' ++ "|" = sb ++ built ff.
Proof.
  intros H. revert sb. induction H as [|f ff Hf _ IH]; intros sb.
  - exists sb. split; reflexivity.
  - cbn [ToRaw_range]. rewrite ContainsRune_space, Hf.
    destruct (IH (strings.WriteRune
                    (strings.WriteString
                       (strings.WriteRune (strings.WriteString sb (Name f)) (rune_lit "|"))
                       (Pattern f)) (rune_lit "|"))) as (sb' & -> & Hsb').
    exists sb'. split; [reflexivity|]. rewrite Hsb'.
    rewrite !WriteRune_bar. unfold strings.WriteString. cbn [built fold_right].
    fold (built ff). rewrite !string_app_assoc. reflexivity.
Qed.

(** A pattern with a space makes the first loop leave with the error,
    whatever the other entries are. *)
Lemma ToRaw_range_space (ff : FileFilter) (sb : strings.Builder) :
  Exists (fun f => contains (Pattern f) " " = true) ff ->
  ToRaw_range ff sb = inr (Errorf "pattern contains a space").
Proof.
  intros H. revert sb. induction ff as [|f ff IH]; intros sb.
  - inversion H.
  - cbn [ToRaw_range]. rewrite ContainsRune_space.
    destruct (contains (Pattern f) " ") eqn:Hf; [reflexivity|].
    apply IH. inversion H; subst; [congruence|assumption].
Qed.

Lemma set_index_mid (done todo : list uint16) (x v : uint16) :
  set_index (done ++ x :: todo) (List.length done) v = (done ++ v :: todo)%list.
Proof.
  unfold set_index. rewrite firstn_app, firstn_all, Nat.sub_diag. cbn [firstn].
  rewrite app_nil_r. f_equal. f_equal.
  rewrite skipn_app, skipn_all2 by lia.
  replace (S (List.length done) - List.length done)%nat with 1%nat by lia.
  reflexivity.
Qed.

Lemma ToRaw_separators_from (done todo : list uint16) :
  fold_left (fun ptr i =>
               if nth i ptr 0 =? to_uint16 (rune_lit "|")
               then set_index ptr i (to_uint16 0) else ptr)
            (seq (List.length done) (List.length todo)) (done ++ todo)%list
  = (done ++ map sep0 todo)%list.
Proof.
  revert done. induction todo as [|x todo IH]; intros done; [reflexivity|].
  cbn [List.length seq fold_left map].
  match goal with
  | |- fold_left _ _ ?step = _ =>
    assert (step = ((done ++ [sep0 x]) ++ todo)%list) as ->
  end.
  { rewrite app_nth2, Nat.sub_diag by lia. cbn [nth].
    change (to_uint16 (rune_lit "|")) with 124. change (to_uint16 0) with 0.
    rewrite <- app_assoc. cbn [app]. unfold sep0.
    destruct (x =? 124); [now rewrite set_index_mid | reflexivity]. }
  replace (S (List.length done)) with (List.length (done ++ [sep0 x])%list)
    by (rewrite length_app; simpl; lia).
  rewrite IH, <- app_assoc. reflexivity.
Qed.

(** The second loop is [sep0] on every unit. *)
Lemma ToRaw_separators_map (ptr : list uint16) :
  ToRaw_separators ptr = map sep0 ptr.
Proof. exact (ToRaw_separators_from [] ptr). Qed.

(** ** The conversions of package syscall *)

Lemma IndexByte_from_range (s : list Z) (c i : Z) :
  0 <= i ->
  strings.IndexByte_from i s c = -1 \/ 0 <= strings.IndexByte_from i s c.
Proof.
  revert i. induction s as [|b s IH]; intros i Hi; cbn [strings.IndexByte_from].
  - now left.
  - destruct (b =? c); [right; lia | apply IH; lia].
Qed.

Lemma IndexByte_NUL (s : string) :
  negb (strings.IndexByte s 0 =? -1) = contains s NUL.
Proof.
  change 0 with (byte_of_ascii NUL) at 1. rewrite <- IndexByte_contains.
  unfold strings.IndexByte.
  destruct (IndexByte_from_range (bytes s) (byte_of_ascii NUL) 0 ltac:(lia)) as [->|H].
  - reflexivity.
  - symmetry. rewrite (proj2 (Z.leb_le _ _) H). symmetry.
    apply negb_true_iff, Z.eqb_neq. lia.
Qed.

Lemma UTF16FromString_ok (s : string) :
  contains s NUL = false ->
  syscall.UTF16FromString s = ((enc s ++ [0])%list, None).
Proof.
  intros H. unfold syscall.UTF16FromString. now rewrite IndexByte_NUL, H.
Qed.

Lemma UTF16FromString_NUL (s : string) :
  contains s NUL = true ->
  syscall.UTF16FromString s = ([], Some EINVAL).
Proof.
  intros H. unfold syscall.UTF16FromString. now rewrite IndexByte_NUL, H.
Qed.

Lemma elem_ptr_0 (x : uint16) (l : list uint16) :
  elem_ptr (x :: l) 0 = Done (x :: l).
Proof. reflexivity. Qed.

Lemma elem_ptr_0_snoc (l : list uint16) (x : uint16) :
  elem_ptr (l ++ [x]) 0 = Done (l ++ [x])%list.
Proof. destruct l; reflexivity. Qed.

Lemma UTF16PtrFromString_ok (s : string) :
  contains s NUL = false ->
  syscall.UTF16PtrFromString s = Done (Some (enc s ++ [0])%list, None).
Proof.
  intros H. unfold syscall.UTF16PtrFromString.
  rewrite UTF16FromString_ok by assumption. now rewrite elem_ptr_0_snoc.
Qed.

Lemma UTF16PtrFromString_NUL (s : string) :
  contains s NUL = true ->
  syscall.UTF16PtrFromString s = Done (None, Some EINVAL).
Proof.
  intros H. unfold syscall.UTF16PtrFromString.
  now rewrite UTF16FromString_NUL.
Qed.

(** ** ToRaw, case by case *)

Lemma has_space_Exists (ff : FileFilter) :
  has_space ff = true <-> Exists (fun f => contains (Pattern f) " " = true) ff.
Proof.
  unfold has_space. rewrite existsb_exists, Exists_exists. reflexivity.
Qed.

Lemma has_space_Forall (ff : FileFilter) :
  has_space ff = false <-> Forall (fun f => contains (Pattern f) " " = false) ff.
Proof.
  unfold has_space. induction ff as [|f ff IH]; cbn [existsb].
  - split; auto.
  - rewrite orb_false_iff, IH. split.
    + intros [? ?]. now constructor.
    + intros H. inversion H. auto.
Qed.

Lemma built_cons (f : Filter) (ff : FileFilter) :
  built (f :: ff) = Name f ++ String "|" (Pattern f ++ String "|" (built ff)).
Proof. reflexivity. Qed.

Lemma built_NUL (ff : FileFilter) : contains (built ff) NUL = has_NUL ff.
Proof.
  induction ff as [|f ff IH]; [reflexivity|].
  rewrite built_cons. cbn [has_NUL existsb]. fold (has_NUL ff). rewrite <- IH.
  change (String "|" (Pattern f ++ String "|" (built ff)))
    with ("|" ++ (Pattern f ++ ("|" ++ built ff))).
  rewrite !contains_app. change (contains "|" NUL) with false.
  cbn [orb]. now rewrite orb_assoc.
Qed.

Lemma bars_cons (f : Filter) (ff : FileFilter) :
  bars (f :: ff) =
  (count 124 (bytes (Name f)) + count 124 (bytes (Pattern f)) + bars ff)%nat.
Proof. reflexivity. Qed.

Lemma built_bars (ff : FileFilter) :
  count 124 (bytes (built ff)) = (2 * List.length ff + 1 + bars ff)%nat.
Proof.
  induction ff as [|f ff IH]; [reflexivity|].
  rewrite built_cons.
  change (String "|" (Pattern f ++ String "|" (built ff)))
    with ("|" ++ (Pattern f ++ ("|" ++ built ff))).
  rewrite !bytes_app, !count_app, IH.
  change (count 124 (bytes "|")) with 1%nat.
  rewrite bars_cons. cbn [List.length]. lia.
Qed.

Lemma count_sep0_NUL (l : list uint16) :
  count 0 (map sep0 l) = (count 0 l + count 124 l)%nat.
Proof.
  unfold count. induction l as [|x l IH]; [reflexivity|].
  cbn [map count_occ]. rewrite IH. unfold sep0.
  destruct (Z.eqb_spec x 124) as [->|Hx]; cbv iota.
  - destruct (Z.eq_dec 0 0); [|congruence].
    destruct (Z.eq_dec 124 0); [lia|]. destruct (Z.eq_dec 124 124); [lia|congruence].
  - destruct (Z.eq_dec x 0); destruct (Z.eq_dec x 124); try congruence; lia.
Qed.

Lemma count_sep0_bar (l : list uint16) : count 124 (map sep0 l) = 0%nat.
Proof.
  unfold count. induction l as [|x l IH]; [reflexivity|].
  cbn [map count_occ]. rewrite IH. unfold sep0.
  destruct (Z.eqb_spec x 124) as [->|Hx]; cbv iota.
  - destruct (Z.eq_dec 0 124); [lia|reflexivity].
  - destruct (Z.eq_dec x 124); [congruence|reflexivity].
Qed.

Lemma map_sep0_id (l : list uint16) : count 124 l = 0%nat -> map sep0 l = l.
Proof.
  unfold count. induction l as [|x l IH]; [reflexivity|].
  cbn [map count_occ]. destruct (Z.eq_dec x 124) as [->|Hx]; [discriminate|].
  intros H. rewrite IH by assumption. unfold sep0.
  now apply Z.eqb_neq in Hx as ->.
Qed.

(** The one description of what [ToRaw] returns: it never panics and
    calls nothing. *)
Lemma ToRaw_spec (ff : FileFilter) :
  ToRaw ff =
  if has_space ff then Done (None, Some (Errorf "pattern contains a space"))
  else if has_NUL ff then Done (None, Some EINVAL)
  else Done (Some (map sep0 (enc (built ff)) ++ [0])%list, None).
Proof.
  unfold ToRaw. destruct (has_space ff) eqn:Hsp.
  - apply has_space_Exists in Hsp. now rewrite ToRaw_range_space.
  - apply has_space_Forall in Hsp.
    destruct (ToRaw_range_ok ff strings.zero Hsp) as (sb & -> & Hsb).
    rewrite WriteRune_bar, Hsb. unfold strings.String.
    change (strings.zero ++ built ff) with (built ff).
    destruct (has_NUL ff) eqn:Hnul; rewrite <- built_NUL in Hnul.
    + now rewrite UTF16FromString_NUL.
    + rewrite UTF16FromString_ok by assumption.
      rewrite ToRaw_separators_map, map_app. cbn [map].
      change (sep0 0) with 0. now rewrite elem_ptr_0_snoc.
Qed.

(** Without ['|'] in the names and patterns, the rewritten buffer is the
    fields in order, each followed by one zero unit, and one more zero. *)
Lemma sep0_built_packed (ff : FileFilter) :
  has_bar ff = false ->
  map sep0 (enc (built ff)) = (packed ff ++ [0])%list.
Proof.
  induction ff as [|f ff IH]; intros H; [reflexivity|].
  cbn [has_bar existsb] in H. fold (has_bar ff) in H.
  apply orb_false_iff in H. destruct H as [H Hff].
  apply orb_false_iff in H. destruct H as [Hn Hp].
  apply contains_count in Hn, Hp. change (byte_of_ascii "|") with 124 in Hn, Hp.
  rewrite built_cons. rewrite !enc_app_sep by (cbv; reflexivity).
  change (byte_of_ascii "|") with 124.
  rewrite map_app. cbn [map]. rewrite map_app. cbn [map].
  change (sep0 124) with 0. rewrite (IH Hff).
  rewrite !map_sep0_id by (rewrite enc_count; [assumption|lia]).
  cbn [packed flat_map]. fold (packed ff).
  rewrite <- !app_assoc. reflexivity.
Qed.

Lemma count_packed_fields (ff : FileFilter) :
  has_NUL ff = false ->
  Forall (fun f => count 0 (enc (Name f)) = 0%nat /\
                   count 0 (enc (Pattern f)) = 0%nat) ff.
Proof.
  induction ff as [|f ff IH]; intros H; constructor.
  - cbn [has_NUL existsb] in H. apply orb_false_iff in H. destruct H as [H _].
    apply orb_false_iff in H. destruct H as [Hn Hp].
    apply contains_count in Hn, Hp. change (byte_of_ascii NUL) with 0 in Hn, Hp.
    rewrite !enc_count by lia. auto.
  - apply IH. cbn [has_NUL existsb] in H. apply orb_false_iff in H. tauto.
Qed.

(** ** NewTagOFNA and the dialog functions, case by case *)

Lemma NewTagOFNA_spec (arch : GOARCH) (hwnd : Z) (title : string)
      (ff : FileFilter) (dir : string) (flags : Z) :
  NewTagOFNA arch hwnd title ff dir flags =
  match encode_error title ff dir with
  | Some e => Done (None, Some e)
  | None => Done (Some (new_ofn arch hwnd title ff dir flags), None)
  end.
Proof.
  unfold NewTagOFNA, encode_error.
  destruct (contains title NUL) eqn:Ht;
    [now rewrite UTF16PtrFromString_NUL | rewrite UTF16PtrFromString_ok by assumption].
  cbn [bind]. rewrite ToRaw_spec.
  destruct (has_space ff); [reflexivity|].
  destruct (has_NUL ff); [reflexivity|]. cbn [bind].
  destruct (contains dir NUL) eqn:Hd;
    [now rewrite UTF16PtrFromString_NUL | rewrite UTF16PtrFromString_ok by assumption].
  reflexivity.
Qed.

Lemma GetOpenFileName_spec (arch : GOARCH) (hwnd : Z) (title : string)
      (ff : FileFilter) (dir : string) :
  GetOpenFileName arch hwnd title ff dir =
  match encode_error title ff dir with
  | Some e => Done (EmptyString, false, Some e)
  | None => Call procGetOpenFileName
                 (passed_ofn arch hwnd title ff dir open_flags) after_call
  end.
Proof.
  unfold GetOpenFileName. rewrite NewTagOFNA_spec.
  destruct (encode_error title ff dir); reflexivity.
Qed.

Lemma GetSaveFileName_spec (arch : GOARCH) (hwnd : Z) (title : string)
      (ff : FileFilter) (dir : string) :
  GetSaveFileName arch hwnd title ff dir =
  match encode_error title ff dir with
  | Some e => Done (EmptyString, false, Some e)
  | None => Call procGetSaveFileName
                 (passed_ofn arch hwnd title ff dir save_flags) after_call
  end.
Proof.
  unfold GetSaveFileName. rewrite NewTagOFNA_spec.
  destruct (encode_error title ff dir); reflexivity.
Qed.

Lemma after_call_Done (reply : Reply) :
  after_call reply =
  Done (if ret reply =? 0 then (EmptyString, false, None)
        else (syscall.UTF16ToString (file reply), true, None)).
Proof. unfold after_call. now destruct (ret reply =? 0). Qed.

Lemma run_call (os : System) (p : Proc) (ofn : TagOFNA) :
  run os (Call p ofn after_call) =
  (Returned (if ret (os p ofn) =? 0 then (EmptyString, false, None)
             else (syscall.UTF16ToString (file (os p ofn)), true, None)),
   [(p, ofn)]).
Proof. cbn [run]. now rewrite after_call_Done. Qed.

Lemma until_NUL_cut (a b : list uint16) :
  ~ In 0 a -> syscall.until_NUL (a ++ 0 :: b) = a.
Proof.
  induction a as [|x a IH]; intros H; [reflexivity|].
  cbn [app syscall.until_NUL].
  destruct (Z.eqb_spec x 0) as [->|_]; [exfalso; apply H; now left|].
  rewrite IH; [reflexivity|]. intros Hin. apply H. now right.
Qed.


Lemma count_packed (ff : FileFilter) :
  has_NUL ff = false -> count 0 (packed ff) = (2 * List.length ff)%nat.
Proof.
  intros H. apply count_packed_fields in H.
  induction H as [|f ff [Hn Hp] _ IH]; [reflexivity|].
  cbn [packed flat_map List.length]. fold (packed ff).
  rewrite !count_app, Hn, Hp, IH.
  change (count 0 [0]) with 1%nat. lia.
Qed.

Lemma bars_pos (ff : FileFilter) : has_bar ff = true -> (0 < bars ff)%nat.
Proof.
  induction ff as [|f ff IH]; [discriminate|].
  cbn [has_bar existsb]. fold (has_bar ff). rewrite bars_cons.
  intros H. apply orb_true_iff in H. destruct H as [H|H]; [|apply IH in H; lia].
  assert (count 124 (bytes (Name f)) <> 0%nat \/ count 124 (bytes (Pattern f)) <> 0%nat)
    as Hc.
  { apply orb_true_iff in H. destruct H as [H|H]; [left|right];
      intros Hz; apply (contains_count _ "|") in Hz; congruence. }
  lia.
Qed.

(** ** Arithmetic of the bit operations *)

Lemma land_low_high (a b n : Z) :
  0 <= n -> 0 <= b < 2 ^ n -> Z.land (a * 2 ^ n) b = 0.
Proof.
  intros Hn Hb. apply Z.bits_inj'. intros i Hi.
  rewrite Z.land_spec, Z.bits_0.
  destruct (Z.lt_ge_cases i n) as [Hlt|Hge].
  - now rewrite Z.mul_pow2_bits_low.
  - destruct (Z.eq_dec b 0) as [->|Hb0].
    + now rewrite Z.bits_0, andb_false_r.
    + rewrite (Z.bits_above_log2 b i), andb_false_r; [reflexivity|lia|].
      assert (Z.log2 b < n) by (apply Z.log2_lt_pow2; lia). lia.
Qed.

Lemma lor_mul_add (a b n : Z) :
  0 <= n -> 0 <= b < 2 ^ n -> Z.lor (a * 2 ^ n) b = a * 2 ^ n + b.
Proof.
  intros Hn Hb. pose proof (land_low_high a b n Hn Hb) as H.
  now rewrite <- Z.lxor_lor, <- Z.add_nocarry_lxor.
Qed.

Lemma byte_spec (x : Z) : utf8.byte x = x mod 256.
Proof.
  unfold utf8.byte. change 0xFF with (Z.ones 8). now rewrite Z.land_ones by lia.
Qed.

Lemma byte_maskx (x : Z) : Z.land (utf8.byte x) utf8.maskx = x mod 64.
Proof.
  unfold utf8.byte. rewrite <- Z.land_assoc.
  change (Z.land 0xFF utf8.maskx) with (Z.ones 6). now rewrite Z.land_ones by lia.
Qed.

Lemma lor_tx (q : Z) : 0 <= q < 64 -> Z.lor utf8.tx q = 128 + q.
Proof.
  intros Hq. change utf8.tx with (2 * 2 ^ 6).
  rewrite lor_mul_add by (change (2 ^ 6) with 64; lia). reflexivity.
Qed.

Lemma land_maskx_tx (q : Z) : 0 <= q < 64 -> Z.land (128 + q) utf8.maskx = q.
Proof.
  intros Hq. change utf8.maskx with (Z.ones 6). rewrite Z.land_ones by lia.
  change (2 ^ 6) with 64. Z.to_euclidean_division_equations. lia.
Qed.

Lemma encoderune_ascii (b : Z) : 0 <= b < 0x80 -> utf8.encoderune b = [b].
Proof.
  intros Hb. unfold utf8.encoderune, utf8.rune1Max, utf8.byte.
  rewrite (Z.mod_small b (2 ^ 32)) by lia.
  assert ((b <=? 127) = true) as -> by (apply Z.leb_le; lia).
  change 0xFF with (Z.ones 8). rewrite Z.land_ones by lia.
  rewrite Z.mod_small by (change (2 ^ 8) with 256; lia). reflexivity.
Qed.

(** The bytes [encoderune] writes, by the size of the rune. *)
Lemma encoderune_2 (r : rune) :
  0x80 <= r <= 0x7FF -> utf8.encoderune r = [192 + r / 64; 128 + r mod 64].
Proof.
  intros Hr. unfold utf8.encoderune, utf8.rune1Max, utf8.rune2Max.
  rewrite (Z.mod_small r (2 ^ 32)) by lia.
  assert ((r <=? 127) = false) as -> by (apply Z.leb_gt; lia).
  assert ((r <=? 2047) = true) as -> by (apply Z.leb_le; lia).
  rewrite byte_maskx, byte_spec, Z.shiftr_div_pow2 by lia.
  change (2 ^ 6) with 64.
  rewrite lor_tx by (apply Z.mod_pos_bound; lia).
  rewrite (Z.mod_small (r / 64) 256) by (Z.to_euclidean_division_equations; lia).
  change utf8.t2 with (3 * 2 ^ 6).
  rewrite lor_mul_add
    by (change (2 ^ 6) with 64; Z.to_euclidean_division_equations; lia).
  reflexivity.
Qed.

Lemma encoderune_3 (r : rune) :
  0x800 <= r <= 0xFFFF -> ~ (0xD800 <= r <= 0xDFFF) ->
  utf8.encoderune r = [224 + r / 4096; 128 + (r / 64) mod 64; 128 + r mod 64].
Proof.
  intros Hr Hs.
  unfold utf8.encoderune, utf8.rune1Max, utf8.rune2Max, utf8.rune3Max,
    utf8.maxRune, utf8.surrogateMin, utf8.surrogateMax.
  rewrite (Z.mod_small r (2 ^ 32)) by lia.
  assert ((r <=? 127) = false) as -> by (apply Z.leb_gt; lia).
  assert ((r <=? 2047) = false) as -> by (apply Z.leb_gt; lia).
  assert ((1114111 <? r) || ((55296 <=? r) && (r <=? 57343)) = false) as ->.
  { rewrite orb_false_iff, andb_false_iff, Z.ltb_ge, !Z.leb_gt. lia. }
  assert ((r <=? 65535) = true) as -> by (apply Z.leb_le; lia).
  rewrite !byte_maskx, byte_spec, !Z.shiftr_div_pow2 by lia.
  change (2 ^ 6) with 64. change (2 ^ 12) with 4096.
  rewrite !lor_tx by (apply Z.mod_pos_bound; lia).
  rewrite (Z.mod_small (r / 4096) 256) by (Z.to_euclidean_division_equations; lia).
  change utf8.t3 with (14 * 2 ^ 4).
  rewrite lor_mul_add
    by (change (2 ^ 4) with 16; Z.to_euclidean_division_equations; lia).
  reflexivity.
Qed.

Lemma encoderune_4 (r : rune) :
  0x10000 <= r <= 0x10FFFF ->
  utf8.encoderune r =
  [240 + r / 262144; 128 + (r / 4096) mod 64; 128 + (r / 64) mod 64; 128 + r mod 64].
Proof.
  intros Hr.
  unfold utf8.encoderune, utf8.rune1Max, utf8.rune2Max, utf8.rune3Max,
    utf8.maxRune, utf8.surrogateMin, utf8.surrogateMax.
  rewrite (Z.mod_small r (2 ^ 32)) by lia.
  assert ((r <=? 127) = false) as -> by (apply Z.leb_gt; lia).
  assert ((r <=? 2047) = false) as -> by (apply Z.leb_gt; lia).
  assert ((1114111 <? r) || ((55296 <=? r) && (r <=? 57343)) = false) as ->.
  { rewrite orb_false_iff, andb_false_iff, Z.ltb_ge, !Z.leb_gt. lia. }
  assert ((r <=? 65535) = false) as -> by (apply Z.leb_gt; lia).
  rewrite !byte_maskx, byte_spec, !Z.shiftr_div_pow2 by lia.
  change (2 ^ 6) with 64. change (2 ^ 12) with 4096. change (2 ^ 18) with 262144.
  rewrite !lor_tx by (apply Z.mod_pos_bound; lia).
  rewrite (Z.mod_small (r / 262144) 256) by (Z.to_euclidean_division_equations; lia).
  change utf8.t4 with (30 * 2 ^ 3).
  rewrite lor_mul_add
    by (change (2 ^ 3) with 8; Z.to_euclidean_division_equations; lia).
  reflexivity.
Qed.

(** The rune [decoderune] reads off well-formed bytes. *)
Lemma decoderune_2 (q c : Z) (rest : list Z) :
  0 <= q < 32 -> 0 <= c < 64 -> 0x7F < q * 64 + c ->
  utf8.decoderune (192 + q :: 128 + c :: rest) = (q * 64 + c, 2%nat).
Proof.
  intros Hq Hc Hr. unfold utf8.decoderune.
  unfold utf8.runeSelf, utf8.t2, utf8.t3, utf8.cont, utf8.locb, utf8.hicb,
    utf8.rune1Max.
  assert ((192 + q <? 128) = false) as -> by (apply Z.ltb_ge; lia).
  assert ((192 <=? 192 + q) && (192 + q <? 224) = true) as ->
    by (rewrite andb_true_iff, Z.leb_le, Z.ltb_lt; lia).
  assert ((128 <=? 128 + c) && (128 + c <=? 191) = true) as ->
    by (rewrite andb_true_iff, !Z.leb_le; lia).
  rewrite land_maskx_tx by assumption.
  assert (Z.land (192 + q) utf8.mask2 = q) as ->.
  { change utf8.mask2 with (Z.ones 5). rewrite Z.land_ones by lia.
    change (2 ^ 5) with 32. Z.to_euclidean_division_equations. lia. }
  rewrite Z.shiftl_mul_pow2 by lia.
  rewrite lor_mul_add by (change (2 ^ 6) with 64; lia). change (2 ^ 6) with 64.
  assert ((127 <? q * 64 + c) = true) as -> by (apply Z.ltb_lt; lia).
  reflexivity.
Qed.

Lemma decoderune_3 (a b c : Z) (rest : list Z) :
  0 <= a < 16 -> 0 <= b < 64 -> 0 <= c < 64 ->
  0x7FF < a * 4096 + b * 64 + c ->
  ~ (0xD800 <= a * 4096 + b * 64 + c <= 0xDFFF) ->
  utf8.decoderune (224 + a :: 128 + b :: 128 + c :: rest)
  = (a * 4096 + b * 64 + c, 3%nat).
Proof.
  intros Ha Hb Hc Hr Hs. unfold utf8.decoderune.
  unfold utf8.runeSelf, utf8.t2, utf8.t3, utf8.t4, utf8.cont, utf8.locb, utf8.hicb,
    utf8.rune2Max, utf8.surrogateMin, utf8.surrogateMax.
  assert ((224 + a <? 128) = false) as -> by (apply Z.ltb_ge; lia).
  assert ((192 <=? 224 + a) && (224 + a <? 224) = false) as ->
    by (rewrite andb_false_iff, Z.ltb_ge; lia).
  assert ((224 <=? 224 + a) && (224 + a <? 240) = true) as ->
    by (rewrite andb_true_iff, Z.leb_le, Z.ltb_lt; lia).
  assert ((128 <=? 128 + b) && (128 + b <=? 191) = true) as ->
    by (rewrite andb_true_iff, !Z.leb_le; lia).
  assert ((128 <=? 128 + c) && (128 + c <=? 191) = true) as ->
    by (rewrite andb_true_iff, !Z.leb_le; lia).
  cbn [andb]. rewrite !land_maskx_tx by assumption.
  assert (Z.land (224 + a) utf8.mask3 = a) as ->.
  { change utf8.mask3 with (Z.ones 4). rewrite Z.land_ones by lia.
    change (2 ^ 4) with 16. Z.to_euclidean_division_equations. lia. }
  rewrite !Z.shiftl_mul_pow2 by lia.
  rewrite (lor_mul_add a (b * 2 ^ 6) 12)
    by (change (2 ^ 6) with 64; change (2 ^ 12) with 4096; lia).
  replace (a * 2 ^ 12 + b * 2 ^ 6) with ((a * 64 + b) * 2 ^ 6)
    by (change (2 ^ 6) with 64; change (2 ^ 12) with 4096; lia).
  rewrite lor_mul_add by (change (2 ^ 6) with 64; lia). change (2 ^ 6) with 64.
  replace ((a * 64 + b) * 64 + c) with (a * 4096 + b * 64 + c) by lia.
  assert ((2047 <? a * 4096 + b * 64 + c)
          && negb ((55296 <=? a * 4096 + b * 64 + c)
                   && (a * 4096 + b * 64 + c <=? 57343)) = true) as ->.
  { rewrite andb_true_iff, negb_true_iff, andb_false_iff, Z.ltb_lt, !Z.leb_gt. lia. }
  reflexivity.
Qed.

Lemma decoderune_4 (a b c d : Z) (rest : list Z) :
  0 <= a < 8 -> 0 <= b < 64 -> 0 <= c < 64 -> 0 <= d < 64 ->
  0xFFFF < a * 262144 + b * 4096 + c * 64 + d <= 0x10FFFF ->
  utf8.decoderune (240 + a :: 128 + b :: 128 + c :: 128 + d :: rest)
  = (a * 262144 + b * 4096 + c * 64 + d, 4%nat).
Proof.
  intros Ha Hb Hc Hd Hr. unfold utf8.decoderune.
  unfold utf8.runeSelf, utf8.t2, utf8.t3, utf8.t4, utf8.t5, utf8.cont, utf8.locb,
    utf8.hicb, utf8.rune3Max, utf8.maxRune.
  assert ((240 + a <? 128) = false) as -> by (apply Z.ltb_ge; lia).
  assert ((192 <=? 240 + a) && (240 + a <? 224) = false) as ->
    by (rewrite andb_false_iff, Z.ltb_ge; lia).
  assert ((224 <=? 240 + a) && (240 + a <? 240) = false) as ->
    by (rewrite andb_false_iff, Z.ltb_ge; lia).
  assert ((240 <=? 240 + a) && (240 + a <? 248) = true) as ->
    by (rewrite andb_true_iff, Z.leb_le, Z.ltb_lt; lia).
  assert ((128 <=? 128 + b) && (128 + b <=? 191) = true) as ->
    by (rewrite andb_true_iff, !Z.leb_le; lia).
  assert ((128 <=? 128 + c) && (128 + c <=? 191) = true) as ->
    by (rewrite andb_true_iff, !Z.leb_le; lia).
  assert ((128 <=? 128 + d) && (128 + d <=? 191) = true) as ->
    by (rewrite andb_true_iff, !Z.leb_le; lia).
  cbn [andb]. rewrite !land_maskx_tx by assumption.
  assert (Z.land (240 + a) utf8.mask4 = a) as ->.
  { change utf8.mask4 with (Z.ones 3). rewrite Z.land_ones by lia.
    change (2 ^ 3) with 8. Z.to_euclidean_division_equations. lia. }
  rewrite !Z.shiftl_mul_pow2 by lia.
  rewrite (lor_mul_add a (b * 2 ^ 12) 18)
    by (change (2 ^ 12) with 4096; change (2 ^ 18) with 262144; lia).
  replace (a * 2 ^ 18 + b * 2 ^ 12) with ((a * 64 + b) * 2 ^ 12)
    by (change (2 ^ 12) with 4096; change (2 ^ 18) with 262144; lia).
  rewrite (lor_mul_add (a * 64 + b) (c * 2 ^ 6) 12)
    by (change (2 ^ 6) with 64; change (2 ^ 12) with 4096; lia).
  replace ((a * 64 + b) * 2 ^ 12 + c * 2 ^ 6) with ((a * 4096 + b * 64 + c) * 2 ^ 6)
    by (change (2 ^ 6) with 64; change (2 ^ 12) with 4096; lia).
  rewrite lor_mul_add by (change (2 ^ 6) with 64; lia). change (2 ^ 6) with 64.
  replace ((a * 4096 + b * 64 + c) * 64 + d)
    with (a * 262144 + b * 4096 + c * 64 + d) by lia.
  assert ((65535 <? a * 262144 + b * 4096 + c * 64 + d)
          && (a * 262144 + b * 4096 + c * 64 + d <=? 1114111) = true) as ->
    by (rewrite andb_true_iff, Z.ltb_lt, Z.leb_le; lia).
  reflexivity.
Qed.

Lemma string_of_bytes_bytes (s : string) : string_of_bytes (bytes s) = s.
Proof.
  induction s as [|c s IH]; [reflexivity|].
  cbn [bytes string_of_bytes]. rewrite IH. f_equal.
  unfold ascii_of_byte, byte_of_ascii. now rewrite N2Z.id, ascii_N_embedding.
Qed.

Lemma bytes_string_of_bytes (l : list Z) :
  Forall (fun b => 0 <= b < 256) l -> bytes (string_of_bytes l) = l.
Proof.
  induction 1 as [|b l Hb _ IH]; [reflexivity|].
  cbn [string_of_bytes bytes]. rewrite IH. f_equal.
  unfold byte_of_ascii, ascii_of_byte.
  rewrite N_ascii_embedding by (change 256%N with (Z.to_N 256); apply Z2N.inj_lt; lia).
  apply Z2N.id. lia.
Qed.

Lemma until_NUL_units (s : list uint16) :
  Forall is_uint16 s -> Forall (fun u => 0 < u < 2 ^ 16) (syscall.until_NUL s).
Proof.
  induction 1 as [|u s Hu _ IH]; [constructor|].
  cbn [syscall.until_NUL]. destruct (Z.eqb_spec u 0); constructor; [|assumption].
  unfold is_uint16 in Hu. lia.
Qed.


(** ** The conversions in arithmetic *)

Lemma encoderune_spec (r : rune) : scalar r -> utf8.encoderune r = spec_utf8 r.
Proof.
  intros Hr. unfold scalar in Hr. unfold spec_utf8.
  destruct (Z.ltb_spec r 0x80); [now rewrite encoderune_ascii by lia|].
  destruct (Z.ltb_spec r 0x800); [now rewrite encoderune_2 by lia|].
  destruct (Z.ltb_spec r 0x10000); [now rewrite encoderune_3 by lia|].
  now rewrite encoderune_4 by lia.
Qed.

(** The three bytes written for a surrogate with no partner. *)
Lemma three_bytes (r : rune) :
  0x800 <= r <= 0xFFFF ->
  [ Z.lor utf8.t3 (utf8.byte (Z.shiftr r 12));
    Z.lor utf8.tx (Z.land (utf8.byte (Z.shiftr r 6)) utf8.maskx);
    Z.lor utf8.tx (Z.land (utf8.byte r) utf8.maskx) ] = spec_utf8 r.
Proof.
  intros Hr. unfold spec_utf8.
  assert ((r <? 128) = false) as -> by (apply Z.ltb_ge; lia).
  assert ((r <? 2048) = false) as -> by (apply Z.ltb_ge; lia).
  assert ((r <? 65536) = true) as -> by (apply Z.ltb_lt; lia).
  rewrite !byte_maskx, byte_spec, !Z.shiftr_div_pow2 by lia.
  change (2 ^ 6) with 64. change (2 ^ 12) with 4096.
  rewrite !lor_tx by (apply Z.mod_pos_bound; lia).
  rewrite (Z.mod_small (r / 4096) 256) by (Z.to_euclidean_division_equations; lia).
  change utf8.t3 with (14 * 2 ^ 4).
  rewrite lor_mul_add
    by (change (2 ^ 4) with 16; Z.to_euclidean_division_equations; lia).
  reflexivity.
Qed.

Lemma DecodeRune_pair (hi lo : Z) :
  0xD800 <= hi < 0xDC00 -> 0xDC00 <= lo < 0xE000 ->
  utf16.DecodeRune hi lo = 0x10000 + (hi - 0xD800) * 1024 + (lo - 0xDC00).
Proof.
  intros Hhi Hlo.
  unfold utf16.DecodeRune, utf16.surr1, utf16.surr2, utf16.surr3, utf16.surrSelf.
  assert ((55296 <=? hi) && (hi <? 56320) && (56320 <=? lo) && (lo <? 57344) = true)
    as -> by (rewrite !andb_true_iff, !Z.leb_le, !Z.ltb_lt; lia).
  rewrite Z.shiftl_mul_pow2 by lia.
  rewrite lor_mul_add by (change (2 ^ 10) with 1024; lia).
  change (2 ^ 10) with 1024. lia.
Qed.

Lemma EncodeRune_arith (r : rune) :
  0x10000 <= r <= 0x10FFFF ->
  utf16.EncodeRune r
  = (0xD800 + (r - 0x10000) / 1024, 0xDC00 + (r - 0x10000) mod 1024).
Proof.
  intros Hr. unfold utf16.EncodeRune, utf16.surrSelf, utf16.surr1, utf16.surr2.
  cbv zeta. change 0x3ff with (Z.ones 10).
  rewrite !Z.land_ones, Z.shiftr_div_pow2 by lia. change (2 ^ 10) with 1024.
  rewrite (Z.mod_small ((r - 65536) / 1024)) by (Z.to_euclidean_division_equations; lia).
  reflexivity.
Qed.

(** The units of a scalar value. *)
Lemma encode1_scalar (r : rune) :
  scalar r ->
  utf16.encode1 r
  = if r <? 0x10000 then [r]
    else [0xD800 + (r - 0x10000) / 1024; 0xDC00 + (r - 0x10000) mod 1024].
Proof.
  intros Hr. unfold scalar in Hr.
  unfold utf16.encode1, utf16.surr1, utf16.surr3, utf16.surrSelf, utf16.maxRune.
  destruct (Z.lt_ge_cases r 0x10000) as [Hlt|Hge].
  - assert (((0 <=? r) && (r <? 55296)) || ((57344 <=? r) && (r <? 65536)) = true)
      as ->.
    { rewrite orb_true_iff, !andb_true_iff, !Z.leb_le, !Z.ltb_lt. lia. }
    now rewrite (proj2 (Z.ltb_lt r 65536) Hlt).
  - assert (((0 <=? r) && (r <? 55296)) || ((57344 <=? r) && (r <? 65536)) = false)
      as ->.
    { rewrite orb_false_iff, !andb_false_iff, !Z.leb_gt, !Z.ltb_ge. lia. }
    assert ((65536 <=? r) && (r <=? 1114111) = true) as ->
      by (rewrite andb_true_iff, !Z.leb_le; lia).
    rewrite EncodeRune_arith by lia.
    now rewrite (proj2 (Z.ltb_ge r 65536) Hge).
Qed.

Lemma encode1_uint16 (r : rune) : scalar r -> Forall is_uint16 (utf16.encode1 r).
Proof.
  intros Hr. rewrite encode1_scalar by assumption. unfold scalar in Hr.
  unfold is_uint16. change (2 ^ 16) with 65536.
  destruct (Z.ltb_spec r 0x10000); repeat constructor;
    Z.to_euclidean_division_equations; lia.
Qed.

(** The bytes of a code point are bytes, and none is zero unless the
    code point is. *)
Lemma spec_utf8_bytes (r : rune) :
  0 <= r <= 0x10FFFF ->
  spec_utf8 r <> [] /\
  Forall (fun b => 0 <= b < 256) (spec_utf8 r) /\
  (0 < r -> Forall (fun b => 0 < b) (spec_utf8 r)).
Proof.
  intros Hr. unfold spec_utf8.
  destruct (Z.ltb_spec r 0x80); [|destruct (Z.ltb_spec r 0x800);
                                   [|destruct (Z.ltb_spec r 0x10000)]];
    (split; [discriminate|]); (split; [|intros Hpos]); repeat constructor;
    Z.to_euclidean_division_equations; lia.
Qed.

Lemma spec_utf8_ascii (l : list Z) :
  Forall (fun b => 0 <= b < 0x80) l -> flat_map spec_utf8 l = l.
Proof.
  induction 1 as [|b l Hb _ IH]; [reflexivity|].
  cbn [flat_map]. rewrite IH. unfold spec_utf8.
  assert ((b <? 128) = true) as -> by (apply Z.ltb_lt; lia). reflexivity.
Qed.

Lemma spec_code_points_ascii (l : list Z) :
  Forall (fun b => 0 <= b < 0x80) l -> spec_code_points l = l.
Proof.
  induction 1 as [|b l Hb _ IH]; [reflexivity|].
  cbn [spec_code_points]. rewrite IH.
  assert ((55296 <=? b) = false) as Hhi by (apply Z.leb_gt; lia).
  destruct l as [|v l']; [reflexivity|]. now rewrite Hhi.
Qed.

(** A unit that is no high surrogate stands for itself, a pair for its
    code point. *)
Lemma spec_code_points_single (u : Z) (rest : list uint16) :
  ~ (0xD800 <= u < 0xDC00) ->
  spec_code_points (u :: rest) = u :: spec_code_points rest.
Proof.
  intros Hu. cbn [spec_code_points]. destruct rest as [|v rest']; [reflexivity|].
  assert ((55296 <=? u) && (u <? 56320) = false) as ->; [|reflexivity].
  rewrite andb_false_iff, Z.leb_gt, Z.ltb_ge. lia.
Qed.

Lemma spec_code_points_pair (hi lo : Z) (rest : list uint16) :
  0xD800 <= hi < 0xDC00 -> 0xDC00 <= lo < 0xE000 ->
  spec_code_points (hi :: lo :: rest)
  = 0x10000 + (hi - 0xD800) * 1024 + (lo - 0xDC00) :: spec_code_points rest.
Proof.
  intros Hhi Hlo. cbn [spec_code_points].
  assert ((55296 <=? hi) && (hi <? 56320) && (56320 <=? lo) && (lo <? 57344) = true)
    as ->; [|reflexivity].
  rewrite !andb_true_iff, !Z.leb_le, !Z.ltb_lt. lia.
Qed.

(** ** UTF16ToString against the standard *)

Lemma until_NUL_id (a : list uint16) : ~ In 0 a -> syscall.until_NUL a = a.
Proof.
  induction a as [|x a IH]; intros H; [reflexivity|].
  cbn [syscall.until_NUL].
  destruct (Z.eqb_spec x 0) as [->|_]; [exfalso; apply H; now left|].
  rewrite IH; [reflexivity|]. intros Hin. apply H. now right.
Qed.

Lemma until_NUL_no_NUL (s : list uint16) : ~ In 0 (syscall.until_NUL s).
Proof.
  induction s as [|u s IH]; [intros []|].
  cbn [syscall.until_NUL]. destruct (Z.eqb_spec u 0); [intros []|].
  intros [H|H]; [congruence|contradiction].
Qed.

(** [decodeWTF16] writes, after what the buffer holds, the bytes of the
    code points of the units. *)
Lemma decodeWTF16_spec (a : list uint16) (buf : list Z) :
  Forall is_uint16 a ->
  syscall.decodeWTF16 a buf
  = (buf ++ flat_map spec_utf8 (spec_code_points a))%list.
Proof.
  remember (List.length a) as n eqn:Hn. revert a buf Hn.
  induction n as [n IH] using lt_wf_ind. intros a buf Hn Ha.
  destruct a as [|u rest]; [cbn; now rewrite app_nil_r|].
  assert (0 <= u < 65536) as Hu by (inversion Ha; assumption).
  assert (Forall is_uint16 rest) as Hrest by (inversion Ha; assumption).
  cbn [syscall.decodeWTF16]. unfold utf16.surr1, utf16.surr2, utf16.surr3.
  destruct ((u <? 55296) || (57344 <=? u)) eqn:Hbmp.
  - apply orb_true_iff in Hbmp. rewrite Z.ltb_lt, Z.leb_le in Hbmp.
    rewrite (IH (List.length rest)); [|subst n; simpl; lia|reflexivity|assumption].
    rewrite spec_code_points_single by lia. cbn [flat_map].
    unfold utf8.AppendRune.
    rewrite encoderune_spec by (unfold scalar; lia).
    now rewrite app_assoc.
  - apply orb_false_iff in Hbmp. rewrite Z.ltb_ge, Z.leb_gt in Hbmp.
    assert ((utf8.maxRune <? u) = false) as Hmax
        by (apply Z.ltb_ge; unfold utf8.maxRune; lia).
    rewrite Hmax, three_bytes by lia.
    destruct rest as [|v rest'].
    + cbn [syscall.decodeWTF16 spec_code_points flat_map].
      now rewrite app_nil_r.
    + destruct ((55296 <=? u) && (u <? 56320) && (56320 <=? v) && (v <? 57344))
        eqn:Hpair.
      * rewrite !andb_true_iff, !Z.leb_le, !Z.ltb_lt in Hpair.
        rewrite (IH (List.length rest')); [|subst n; simpl; lia|reflexivity|].
        -- rewrite spec_code_points_pair, DecodeRune_pair by lia.
           cbn [flat_map]. unfold utf8.AppendRune.
           assert (0 <= v < 65536) as Hv by (inversion Hrest; assumption).
           rewrite encoderune_spec by (unfold scalar; lia).
           now rewrite app_assoc.
        -- now inversion Hrest.
      * rewrite (IH (List.length (v :: rest')));
          [|subst n; simpl; lia|reflexivity|assumption].
        cbn [spec_code_points]. rewrite Hpair. cbn [flat_map].
        now rewrite app_assoc.
Qed.

Lemma until_NUL_uint16 (s : list uint16) :
  Forall is_uint16 s -> Forall is_uint16 (syscall.until_NUL s).
Proof.
  induction 1 as [|u s Hu _ IH]; [constructor|].
  cbn [syscall.until_NUL]. destruct (u =? 0); now constructor.
Qed.

(** [UTF16ToString] is the text of the code points of the units before
    the first zero. *)
Lemma UTF16ToString_text (buf : list uint16) :
  Forall is_uint16 buf ->
  syscall.UTF16ToString buf = text (spec_code_points (syscall.until_NUL buf)).
Proof.
  intros H. unfold syscall.UTF16ToString, text.
  now rewrite decodeWTF16_spec by now apply until_NUL_uint16.
Qed.

(** The code points of nonzero units are nonzero and in range. *)
Lemma spec_code_points_range (a : list uint16) :
  Forall (fun u => 0 < u < 2 ^ 16) a ->
  Forall (fun r => 0 < r <= 0x10FFFF) (spec_code_points a).
Proof.
  remember (List.length a) as n eqn:Hn. revert a Hn.
  induction n as [n IH] using lt_wf_ind. intros a Hn Ha.
  destruct a as [|u rest]; [constructor|].
  assert (0 < u < 65536) as Hu by (inversion Ha; assumption).
  assert (Forall (fun u => 0 < u < 2 ^ 16) rest) as Hrest
      by (inversion Ha; assumption).
  cbn [spec_code_points]. destruct rest as [|v rest'].
  - constructor; [lia|constructor].
  - destruct ((55296 <=? u) && (u <? 56320) && (56320 <=? v) && (v <? 57344))
      eqn:Hpair.
    + rewrite !andb_true_iff, !Z.leb_le, !Z.ltb_lt in Hpair.
      constructor; [lia|].
      apply (IH (List.length rest')); [subst n; simpl; lia|reflexivity|].
      now inversion Hrest.
    + constructor; [lia|].
      apply (IH (List.length (v :: rest'))); [subst n; simpl; lia|reflexivity|assumption].
Qed.

Lemma text_bytes (rs : list rune) :
  Forall (fun r => 0 < r <= 0x10FFFF) rs ->
  bytes (text rs) = flat_map spec_utf8 rs /\ contains (text rs) NUL = false.
Proof.
  intros Hrs.
  assert (Forall (fun b => 0 < b < 256) (flat_map spec_utf8 rs)) as Hb.
  { induction Hrs as [|r rs Hr _ IH]; [constructor|].
    cbn [flat_map]. apply Forall_app. split; [|exact IH].
    destruct (spec_utf8_bytes r ltac:(lia)) as (_ & H1 & H2).
    specialize (H2 ltac:(lia)). rewrite Forall_forall in *. intros b Hin.
    specialize (H1 b Hin). specialize (H2 b Hin). lia. }
  assert (bytes (text rs) = flat_map spec_utf8 rs) as Hbytes.
  { unfold text. apply bytes_string_of_bytes. eapply Forall_impl; [|exact Hb].
    cbv beta. intros; lia. }
  split; [exact Hbytes|].
  unfold contains. rewrite Hbytes. change (byte_of_ascii NUL) with 0.
  destruct (existsb (Z.eqb 0) (flat_map spec_utf8 rs)) eqn:Hex; [|reflexivity].
  apply existsb_exists in Hex. destruct Hex as (b & Hin & Heq).
  apply Z.eqb_eq in Heq. subst b.
  rewrite Forall_forall in Hb. specialize (Hb 0 Hin). lia.
Qed.

Lemma text_ascii (s : string) : ascii_only s = true -> text (bytes s) = s.
Proof.
  unfold ascii_only, text. intros H.
  assert (Forall (fun b => 0 <= b < 0x80) (bytes s)) as Hall.
  { rewrite forallb_forall in H. apply Forall_forall. intros b Hin.
    specialize (H b Hin). apply Z.ltb_lt in H.
    pose proof (bytes_range s) as Hr. rewrite Forall_forall in Hr.
    specialize (Hr b Hin). lia. }
  rewrite spec_utf8_ascii by assumption. apply string_of_bytes_bytes.
Qed.

(** * The claims *)

(** ** The filter encoder *)

(** C1, as stated, does not hold.  On the filters of the specification's
    own example the buffer is the stated sequence and one zero unit more
    (the terminator [UTF16FromString] adds), so it has six zero units and
    not [2 * 2 + 1]; a name with a ['|'] in it is cut in two fields; a name
    with a NUL byte is refused although its pattern has no space. *)
Lemma ToRaw_layout_counterexample :
  (has_space ex_filters = false /\
   ToRaw ex_filters = Done (Some (spec_layout ex_filters ++ [0])%list, None) /\
   ToRaw ex_filters <> Done (Some (spec_layout ex_filters), None) /\
   count 0 (spec_layout ex_filters ++ [0]) = 6%nat /\
   count 0 (spec_layout ex_filters ++ [0]) <> (2 * List.length ex_filters + 1)%nat) /\
  (has_space [mkFilter "a|b" "*.txt"] = false /\
   ToRaw [mkFilter "a|b" "*.txt"] =
   Done (Some [97; 0; 98; 0; 42; 46; 116; 120; 116; 0; 0; 0], None)) /\
  (has_space [mkFilter (String "a" (String NUL "b")) "*.txt"] = false /\
   ToRaw [mkFilter (String "a" (String NUL "b")) "*.txt"] =
   Done (None, Some EINVAL)).
Proof.
  repeat split; try (vm_compute; reflexivity); vm_compute; discriminate.
Qed.

(** C1, amended: for every filter list whose patterns have no space and
    whose names and patterns have neither a ['|'] nor a NUL byte, [ToRaw]
    returns, and no error with it, the buffer made of every name and
    pattern in input order, each followed by one zero unit, and of two
    more zero units after the last pattern; no field has a zero unit of
    its own, so the buffer has [2 * len + 2] of them. *)
Theorem ToRaw_layout (ff : FileFilter) :
  has_space ff = false -> has_NUL ff = false -> has_bar ff = false ->
  ToRaw ff = Done (Some (packed ff ++ [0; 0])%list, None) /\
  Forall (fun f => count 0 (enc (Name f)) = 0%nat /\
                   count 0 (enc (Pattern f)) = 0%nat) ff /\
  count 0 (packed ff ++ [0; 0]) = (2 * List.length ff + 2)%nat.
Proof.
  intros Hsp Hnul Hbar. split; [|split].
  - rewrite ToRaw_spec, Hsp, Hnul, (sep0_built_packed ff Hbar).
    now rewrite <- app_assoc.
  - now apply count_packed_fields.
  - rewrite count_app, (count_packed ff Hnul).
    change (count 0 [0; 0]) with 2%nat. lia.
Qed.

Lemma ToRaw_layout_witness :
  has_space ex_filters = false /\ has_NUL ex_filters = false /\
  has_bar ex_filters = false /\
  ToRaw ex_filters = Done (Some (packed ex_filters ++ [0; 0])%list, None) /\
  Forall (fun f => count 0 (enc (Name f)) = 0%nat /\
                   count 0 (enc (Pattern f)) = 0%nat) ex_filters /\
  count 0 (packed ex_filters ++ [0; 0]) = (2 * List.length ex_filters + 2)%nat.
Proof.
  split; [reflexivity|]. split; [reflexivity|]. split; [reflexivity|].
  apply (ToRaw_layout ex_filters); reflexivity.
Defined.

(** The example, unit by unit: the stated sequence and one zero more. *)
Example ToRaw_ex_filters :
  ToRaw ex_filters =
  Done (Some [84; 101; 120; 116; 32; 70; 105; 108; 101; 115; 0;
              42; 46; 116; 120; 116; 0;
              65; 108; 108; 32; 70; 105; 108; 101; 115; 0;
              42; 46; 42; 0; 0; 0], None).
Proof. vm_compute. reflexivity. Qed.

(** C2: a filter list with a space in some pattern makes [ToRaw] return
    the pattern error and no buffer, and both dialog functions return an
    error without calling the system; the error is the pattern error as
    soon as the title converts. *)
Theorem ToRaw_space_error (ff : FileFilter) :
  has_space ff = true ->
  ToRaw ff = Done (None, Some (Errorf "pattern contains a space")) /\
  forall (arch : GOARCH) (os : System) (hwnd : Z) (title dir : string),
  exists e,
    run os (GetOpenFileName arch hwnd title ff dir)
    = (Returned (EmptyString, false, Some e), []) /\
    run os (GetSaveFileName arch hwnd title ff dir)
    = (Returned (EmptyString, false, Some e), []) /\
    (contains title NUL = false -> e = Errorf "pattern contains a space").
Proof.
  intros Hsp. split; [now rewrite ToRaw_spec, Hsp|].
  intros arch os hwnd title dir.
  rewrite GetOpenFileName_spec, GetSaveFileName_spec.
  unfold encode_error. rewrite Hsp.
  destruct (contains title NUL); eexists; (split; [reflexivity|]);
    (split; [reflexivity|]); [discriminate | reflexivity].
Qed.

Lemma ToRaw_space_error_witness :
  has_space [mkFilter "Bad" "*.* txt"] = true /\
  ToRaw [mkFilter "Bad" "*.* txt"]
  = Done (None, Some (Errorf "pattern contains a space")) /\
  exists e,
    run os_pick (GetOpenFileName GOARCH_amd64 0 "Open" [mkFilter "Bad" "*.* txt"] "C:\")
    = (Returned (EmptyString, false, Some e), []) /\
    run os_pick (GetSaveFileName GOARCH_amd64 0 "Open" [mkFilter "Bad" "*.* txt"] "C:\")
    = (Returned (EmptyString, false, Some e), []) /\
    (contains "Open" NUL = false -> e = Errorf "pattern contains a space").
Proof.
  split; [reflexivity|].
  destruct (ToRaw_space_error [mkFilter "Bad" "*.* txt"] eq_refl) as [H1 H2].
  split; [exact H1|].
  exact (H2 GOARCH_amd64 os_pick 0 "Open" "C:\").
Defined.

(** C7: on the empty filter list [ToRaw] does not panic and returns the
    buffer of two zero units; on no list at all does it panic: the
    builder it converts is never empty, so whenever the conversion
    succeeds the slice has a first unit to take the address of. *)
Theorem ToRaw_empty :
  ToRaw [] = Done (Some [0; 0], None) /\
  (forall ff, ToRaw ff <> Panic) /\
  (forall ff sb ptr,
      ToRaw_range ff strings.zero = inl sb ->
      syscall.UTF16FromString
        (strings.String (strings.WriteRune sb (rune_lit "|"))) = (ptr, None) ->
      strings.String (strings.WriteRune sb (rune_lit "|")) <> EmptyString /\
      (0 < List.length (ToRaw_separators ptr))%nat /\
      elem_ptr (ToRaw_separators ptr) 0 = Done (ToRaw_separators ptr)).
Proof.
  split; [vm_compute; reflexivity|]. split.
  - intros ff. rewrite ToRaw_spec.
    destruct (has_space ff); [discriminate|].
    destruct (has_NUL ff); discriminate.
  - intros ff sb ptr _. rewrite WriteRune_bar. unfold strings.String.
    intros Hconv. split; [destruct sb; discriminate|].
    destruct (contains (sb ++ "|") NUL) eqn:Hn.
    + rewrite UTF16FromString_NUL in Hconv by assumption. discriminate.
    + rewrite UTF16FromString_ok in Hconv by assumption.
      injection Hconv as <-. rewrite ToRaw_separators_map, map_app.
      cbn [map]. split; [rewrite length_app; simpl; lia|].
      apply elem_ptr_0_snoc.
Qed.

Lemma ToRaw_empty_witness :
  strings.String (strings.WriteRune EmptyString (rune_lit "|")) <> EmptyString /\
  (0 < List.length (ToRaw_separators [124%Z; 0%Z]))%nat /\
  elem_ptr (ToRaw_separators [124; 0]) 0 = Done (ToRaw_separators [124; 0]).
Proof.
  destruct ToRaw_empty as (_ & _ & H).
  apply (H [] EmptyString [124; 0]); vm_compute; reflexivity.
Defined.

(** C10: a ['|'] in a name or a pattern is no cause of rejection.  When
    no pattern has a space and nothing has a NUL byte, [ToRaw] returns the
    units of the built string with every ['|'] unit turned into zero,
    those of the names and patterns included: no ['|'] unit is left, and
    the buffer has one zero unit more for each ['|'] of the input, so
    more than [2 * len + 2] as soon as there is one. *)
Theorem ToRaw_bar (ff : FileFilter) :
  has_space ff = false -> has_NUL ff = false ->
  exists buf,
    ToRaw ff = Done (Some buf, None) /\
    buf = map sep0 (enc (built ff) ++ [0]) /\
    count 124 buf = 0%nat /\
    count 0 buf = (2 * List.length ff + 2 + bars ff)%nat /\
    (has_bar ff = true -> (2 * List.length ff + 2 < count 0 buf)%nat).
Proof.
  intros Hsp Hnul. exists (map sep0 (enc (built ff) ++ [0])).
  assert (count 0 (map sep0 (enc (built ff) ++ [0]))
          = (2 * List.length ff + 2 + bars ff)%nat) as Hcount.
  { rewrite count_sep0_NUL, !count_app, !enc_count by lia.
    rewrite built_bars.
    rewrite <- built_NUL in Hnul. apply contains_count in Hnul.
    change (byte_of_ascii NUL) with 0 in Hnul. rewrite Hnul.
    change (count 0 [0]) with 1%nat. change (count 124 [0]) with 0%nat. lia. }
  split; [|split; [reflexivity|split; [apply count_sep0_bar|split]]].
  - rewrite ToRaw_spec, Hsp, Hnul, map_app. reflexivity.
  - exact Hcount.
  - intros Hbar. apply bars_pos in Hbar. lia.
Qed.

Lemma ToRaw_bar_witness :
  has_space [mkFilter "a|b" "*.c|*.h"] = false /\
  has_NUL [mkFilter "a|b" "*.c|*.h"] = false /\
  exists buf,
    ToRaw [mkFilter "a|b" "*.c|*.h"] = Done (Some buf, None) /\
    buf = map sep0 (enc (built [mkFilter "a|b" "*.c|*.h"]) ++ [0]) /\
    count 124 buf = 0%nat /\
    count 0 buf = (2 * List.length [mkFilter "a|b" "*.c|*.h"] + 2
                   + bars [mkFilter "a|b" "*.c|*.h"])%nat /\
    (has_bar [mkFilter "a|b" "*.c|*.h"] = true ->
     (2 * List.length [mkFilter "a|b" "*.c|*.h"] + 2 < count 0 buf)%nat).
Proof.
  split; [reflexivity|]. split; [reflexivity|].
  apply (ToRaw_bar [mkFilter "a|b" "*.c|*.h"]); reflexivity.
Defined.

(** The same entry, unit by unit: [a], [b], [*.c] and [*.h] have become
    four fields. *)
Example ToRaw_bar_example :
  ToRaw [mkFilter "a|b" "*.c|*.h"] =
  Done (Some [97; 0; 98; 0; 42; 46; 99; 0; 42; 46; 104; 0; 0; 0], None).
Proof. vm_compute. reflexivity. Qed.

(** ** The dialog functions *)

Lemma calls_Open (arch : GOARCH) (os : System) (hwnd : Z) (title : string)
      (ff : FileFilter) (dir : string) (p : Proc) (ofn : TagOFNA) :
  In (p, ofn) (calls os (GetOpenFileName arch hwnd title ff dir)) ->
  encode_error title ff dir = None /\
  p = procGetOpenFileName /\
  ofn = passed_ofn arch hwnd title ff dir open_flags.
Proof.
  unfold calls. rewrite GetOpenFileName_spec.
  destruct (encode_error title ff dir); [intros []|].
  rewrite run_call. cbn [snd In].
  intros [H|[]]. injection H as <- <-. auto.
Qed.

Lemma calls_Save (arch : GOARCH) (os : System) (hwnd : Z) (title : string)
      (ff : FileFilter) (dir : string) (p : Proc) (ofn : TagOFNA) :
  In (p, ofn) (calls os (GetSaveFileName arch hwnd title ff dir)) ->
  encode_error title ff dir = None /\
  p = procGetSaveFileName /\
  ofn = passed_ofn arch hwnd title ff dir save_flags.
Proof.
  unfold calls. rewrite GetSaveFileName_spec.
  destruct (encode_error title ff dir); [intros []|].
  rewrite run_call. cbn [snd In].
  intros [H|[]]. injection H as <- <-. auto.
Qed.

(** When the three conversions succeed each dialog function makes one
    call, to its own entry point. *)
Lemma calls_ok (arch : GOARCH) (os : System) (hwnd : Z) (title : string)
      (ff : FileFilter) (dir : string) :
  encode_error title ff dir = None ->
  calls os (GetOpenFileName arch hwnd title ff dir)
  = [(procGetOpenFileName, passed_ofn arch hwnd title ff dir open_flags)] /\
  calls os (GetSaveFileName arch hwnd title ff dir)
  = [(procGetSaveFileName, passed_ofn arch hwnd title ff dir save_flags)].
Proof.
  intros H. unfold calls.
  rewrite GetOpenFileName_spec, GetSaveFileName_spec, H, !run_call.
  split; reflexivity.
Qed.

(** C3: when the call a dialog function makes answers zero, the function
    returns the empty path, [false] and no error. *)
Theorem dialog_cancelled (arch : GOARCH) (os : System) (hwnd : Z)
        (title : string) (ff : FileFilter) (dir : string) :
  (forall p ofn,
      In (p, ofn) (calls os (GetOpenFileName arch hwnd title ff dir)) ->
      ret (os p ofn) = 0 ->
      result os (GetOpenFileName arch hwnd title ff dir)
      = Returned (EmptyString, false, None)) /\
  (forall p ofn,
      In (p, ofn) (calls os (GetSaveFileName arch hwnd title ff dir)) ->
      ret (os p ofn) = 0 ->
      result os (GetSaveFileName arch hwnd title ff dir)
      = Returned (EmptyString, false, None)).
Proof.
  split; intros p ofn Hin Hret.
  - apply calls_Open in Hin. destruct Hin as (He & -> & ->).
    unfold result. rewrite GetOpenFileName_spec, He, run_call, Hret. reflexivity.
  - apply calls_Save in Hin. destruct Hin as (He & -> & ->).
    unfold result. rewrite GetSaveFileName_spec, He, run_call, Hret. reflexivity.
Qed.

Lemma dialog_cancelled_witness :
  result os_cancel (GetOpenFileName GOARCH_amd64 0 "Open" ex_filters "C:\")
  = Returned (EmptyString, false, None) /\
  result os_cancel (GetSaveFileName GOARCH_amd64 0 "Save" ex_filters "C:\")
  = Returned (EmptyString, false, None).
Proof.
  split.
  - apply (proj1 (dialog_cancelled GOARCH_amd64 os_cancel 0 "Open" ex_filters "C:\")
                 procGetOpenFileName
                 (passed_ofn GOARCH_amd64 0 "Open" ex_filters "C:\" open_flags)).
    + rewrite (proj1 (calls_ok GOARCH_amd64 os_cancel 0 "Open" ex_filters "C:\" eq_refl)).
      left. reflexivity.
    + reflexivity.
  - apply (proj2 (dialog_cancelled GOARCH_amd64 os_cancel 0 "Save" ex_filters "C:\")
                 procGetSaveFileName
                 (passed_ofn GOARCH_amd64 0 "Save" ex_filters "C:\" save_flags)).
    + rewrite (proj2 (calls_ok GOARCH_amd64 os_cancel 0 "Save" ex_filters "C:\" eq_refl)).
      left. reflexivity.
    + reflexivity.
Defined.

(** C4: when the conversion of the title, of the filter list or of the
    initial directory fails, both dialog functions return the empty
    path, [false] and an error, and call nothing. *)
Theorem dialog_encoding_error (arch : GOARCH) (os : System) (hwnd : Z)
        (title : string) (ff : FileFilter) (dir : string) :
  snd (syscall.UTF16FromString title) <> None \/
  (exists e, ToRaw ff = Done (None, Some e)) \/
  snd (syscall.UTF16FromString dir) <> None ->
  exists e,
    GetOpenFileName arch hwnd title ff dir = Done (EmptyString, false, Some e) /\
    GetSaveFileName arch hwnd title ff dir = Done (EmptyString, false, Some e) /\
    run os (GetOpenFileName arch hwnd title ff dir)
    = (Returned (EmptyString, false, Some e), []) /\
    run os (GetSaveFileName arch hwnd title ff dir)
    = (Returned (EmptyString, false, Some e), []).
Proof.
  intros H.
  assert (exists e, encode_error title ff dir = Some e) as [e He].
  { unfold encode_error.
    destruct (contains title NUL) eqn:Ht; [eauto|].
    destruct (has_space ff) eqn:Hsp; [eauto|].
    destruct (has_NUL ff) eqn:Hnul; [eauto|].
    destruct (contains dir NUL) eqn:Hd; [eauto|].
    exfalso. destruct H as [H|[[e H]|H]].
    - rewrite UTF16FromString_ok in H by assumption. now apply H.
    - rewrite ToRaw_spec, Hsp, Hnul in H. discriminate.
    - rewrite UTF16FromString_ok in H by assumption. now apply H. }
  exists e. rewrite GetOpenFileName_spec, GetSaveFileName_spec, He.
  repeat split; reflexivity.
Qed.

Lemma dialog_encoding_error_witness :
  exists e,
    GetOpenFileName GOARCH_amd64 0 (String "T" (String NUL "x")) ex_filters "C:\"
    = Done (EmptyString, false, Some e) /\
    GetSaveFileName GOARCH_amd64 0 (String "T" (String NUL "x")) ex_filters "C:\"
    = Done (EmptyString, false, Some e) /\
    run os_pick (GetOpenFileName GOARCH_amd64 0 (String "T" (String NUL "x")) ex_filters "C:\")
    = (Returned (EmptyString, false, Some e), []) /\
    run os_pick (GetSaveFileName GOARCH_amd64 0 (String "T" (String NUL "x")) ex_filters "C:\")
    = (Returned (EmptyString, false, Some e), []).
Proof.
  apply (dialog_encoding_error GOARCH_amd64 os_pick 0 (String "T" (String NUL "x"))
                               ex_filters "C:\").
  left. vm_compute. discriminate.
Defined.

(** The set bits of the two flag words. *)
Lemma open_flags_bits (i : Z) :
  Z.testbit open_flags i = true <-> i = 2 \/ i = 11 \/ i = 12.
Proof.
  change open_flags with 6148. split.
  - intros H. destruct (Z.ltb_spec i 0) as [Hneg|Hpos].
    + rewrite Z.testbit_neg_r in H by assumption. discriminate.
    + destruct (Z.ltb_spec i 13) as [Hlt|Hge].
      * assert (i = 0 \/ i = 1 \/ i = 2 \/ i = 3 \/ i = 4 \/ i = 5 \/ i = 6 \/
                i = 7 \/ i = 8 \/ i = 9 \/ i = 10 \/ i = 11 \/ i = 12) as Hi by lia.
        repeat (destruct Hi as [->|Hi]; [try discriminate H; auto|]).
        subst i. auto.
      * rewrite Z.bits_above_log2 in H; [discriminate|lia|].
        change (Z.log2 6148) with 12. lia.
  - intros [-> | [-> | ->]]; reflexivity.
Qed.

Lemma save_flags_bits (i : Z) :
  Z.testbit save_flags i = true <-> i = 2 \/ i = 11.
Proof.
  change save_flags with 2052. split.
  - intros H. destruct (Z.ltb_spec i 0) as [Hneg|Hpos].
    + rewrite Z.testbit_neg_r in H by assumption. discriminate.
    + destruct (Z.ltb_spec i 12) as [Hlt|Hge].
      * assert (i = 0 \/ i = 1 \/ i = 2 \/ i = 3 \/ i = 4 \/ i = 5 \/ i = 6 \/
                i = 7 \/ i = 8 \/ i = 9 \/ i = 10 \/ i = 11) as Hi by lia.
        repeat (destruct Hi as [->|Hi]; [try discriminate H; auto|]).
        subst i. auto.
      * rewrite Z.bits_above_log2 in H; [discriminate|lia|].
        change (Z.log2 2052) with 11. lia.
  - intros [-> | ->]; reflexivity.
Qed.

(** Which of the declared flags each word has. *)
Lemma open_flags_members (c : Z) :
  In c all_flags ->
  (Z.land open_flags c <> 0 <->
   c = FileMustExist \/ c = HideReadOnly \/ c = PathMustExist).
Proof.
  intros Hin. unfold all_flags in Hin. cbn [In] in Hin.
  repeat (destruct Hin as [<-|Hin];
          [vm_compute; split;
           [ intros H; first [ exfalso; apply H; reflexivity | auto ]
           | intros [H|[H|H]]; discriminate ] |]).
  destruct Hin.
Qed.

Lemma save_flags_members (c : Z) :
  In c all_flags ->
  (Z.land save_flags c <> 0 <-> c = HideReadOnly \/ c = PathMustExist).
Proof.
  intros Hin. unfold all_flags in Hin. cbn [In] in Hin.
  repeat (destruct Hin as [<-|Hin];
          [vm_compute; split;
           [ intros H; first [ exfalso; apply H; reflexivity | auto ]
           | intros [H|H]; discriminate ] |]).
  destruct Hin.
Qed.

Lemma with_Flags_passed (arch : GOARCH) (hwnd : Z) (title : string)
      (ff : FileFilter) (dir : string) (flags flags' : Z) :
  with_Flags (passed_ofn arch hwnd title ff dir flags) flags'
  = passed_ofn arch hwnd title ff dir flags'.
Proof.
  unfold passed_ofn, new_ofn, with_Flags, set_NMaxFile, set_LpstrFile.
  cbn [LStructSize HwndOwner HInstance LpstrFilter LpstrCustomFilter
       NMaxCustFilter NFilterIndex LpstrFile NMaxFile LpstrFileTitle
       NMaxFileTitle LpstrInitialDir LpstrTitle Flags NFileOffset
       NFileExtension LpstrDefExt LCustData LpfnHook LpTemplateName
       PvReserved DwReserved FlagsEx].
  reflexivity.
Qed.

Lemma Flags_passed (arch : GOARCH) (hwnd : Z) (title : string)
      (ff : FileFilter) (dir : string) (flags : Z) :
  Flags (passed_ofn arch hwnd title ff dir flags) = flags.
Proof. reflexivity. Qed.

(** C6: every structure [GetOpenFileName] passes to the system goes to
    the open entry point with the flag word
    [FileMustExist | HideReadOnly | PathMustExist]: of the declared flags
    these three and no other, and bits 2, 11 and 12 and no other. *)
Theorem GetOpenFileName_flags (arch : GOARCH) (os : System) (hwnd : Z)
        (title : string) (ff : FileFilter) (dir : string)
        (p : Proc) (ofn : TagOFNA) :
  In (p, ofn) (calls os (GetOpenFileName arch hwnd title ff dir)) ->
  p = procGetOpenFileName /\
  Flags ofn = Z.lor (Z.lor FileMustExist HideReadOnly) PathMustExist /\
  Flags ofn = 0x1804 /\
  (forall c, In c all_flags ->
             (Z.land (Flags ofn) c <> 0 <->
              c = FileMustExist \/ c = HideReadOnly \/ c = PathMustExist)) /\
  (forall i, Z.testbit (Flags ofn) i = true <-> i = 2 \/ i = 11 \/ i = 12).
Proof.
  intros Hin. apply calls_Open in Hin. destruct Hin as (_ & -> & ->).
  rewrite Flags_passed.
  split; [reflexivity|]. split; [reflexivity|]. split; [reflexivity|].
  split; [apply open_flags_members | apply open_flags_bits].
Qed.

Lemma GetOpenFileName_flags_witness :
  In (procGetOpenFileName, passed_ofn GOARCH_amd64 0 "Open" ex_filters "C:\" open_flags)
     (calls os_pick (GetOpenFileName GOARCH_amd64 0 "Open" ex_filters "C:\")) /\
  Flags (passed_ofn GOARCH_amd64 0 "Open" ex_filters "C:\" open_flags) = 0x1804.
Proof.
  assert (In (procGetOpenFileName,
              passed_ofn GOARCH_amd64 0 "Open" ex_filters "C:\" open_flags)
             (calls os_pick (GetOpenFileName GOARCH_amd64 0 "Open" ex_filters "C:\")))
    as Hin.
  { rewrite (proj1 (calls_ok GOARCH_amd64 os_pick 0 "Open" ex_filters "C:\" eq_refl)).
    left. reflexivity. }
  split; [exact Hin|].
  exact (proj1 (proj2 (proj2
    (GetOpenFileName_flags GOARCH_amd64 os_pick 0 "Open" ex_filters "C:\"
       procGetOpenFileName
       (passed_ofn GOARCH_amd64 0 "Open" ex_filters "C:\" open_flags) Hin)))).
Defined.

(** C5: [GetSaveFileName] is [GetOpenFileName] with the save entry point
    and another flag word, and the same in everything else: the same
    errors, the same structure but for [Flags], the same handling of the
    reply.  Its flag word is [HideReadOnly | PathMustExist]: of the
    declared flags these two and no other, [FileMustExist] not among
    them. *)
Theorem GetSaveFileName_as_open (arch : GOARCH) (hwnd : Z)
        (title : string) (ff : FileFilter) (dir : string) :
  GetSaveFileName arch hwnd title ff dir
  = as_save (GetOpenFileName arch hwnd title ff dir) /\
  forall (os : System) (p : Proc) (ofn : TagOFNA),
    In (p, ofn) (calls os (GetSaveFileName arch hwnd title ff dir)) ->
    p = procGetSaveFileName /\
    Flags ofn = Z.lor HideReadOnly PathMustExist /\
    Flags ofn = 0x804 /\
    Z.land (Flags ofn) FileMustExist = 0 /\
    (forall c, In c all_flags ->
               (Z.land (Flags ofn) c <> 0 <->
                c = HideReadOnly \/ c = PathMustExist)) /\
    (forall i, Z.testbit (Flags ofn) i = true <-> i = 2 \/ i = 11).
Proof.
  split.
  - rewrite GetSaveFileName_spec, GetOpenFileName_spec.
    destruct (encode_error title ff dir); [reflexivity|].
    cbn [as_save]. now rewrite with_Flags_passed.
  - intros os p ofn Hin. apply calls_Save in Hin. destruct Hin as (_ & -> & ->).
    rewrite Flags_passed.
    split; [reflexivity|]. split; [reflexivity|]. split; [reflexivity|].
    split; [reflexivity|].
    split; [apply save_flags_members | apply save_flags_bits].
Qed.

Lemma GetSaveFileName_as_open_witness :
  In (procGetSaveFileName, passed_ofn GOARCH_amd64 0 "Save" ex_filters "C:\" save_flags)
     (calls os_pick (GetSaveFileName GOARCH_amd64 0 "Save" ex_filters "C:\")) /\
  Flags (passed_ofn GOARCH_amd64 0 "Save" ex_filters "C:\" save_flags) = 0x804.
Proof.
  assert (In (procGetSaveFileName,
              passed_ofn GOARCH_amd64 0 "Save" ex_filters "C:\" save_flags)
             (calls os_pick (GetSaveFileName GOARCH_amd64 0 "Save" ex_filters "C:\")))
    as Hin.
  { rewrite (proj2 (calls_ok GOARCH_amd64 os_pick 0 "Save" ex_filters "C:\" eq_refl)).
    left. reflexivity. }
  split; [exact Hin|].
  exact (proj1 (proj2 (proj2
    (proj2 (GetSaveFileName_as_open GOARCH_amd64 0 "Save" ex_filters "C:\")
           os_pick procGetSaveFileName
           (passed_ofn GOARCH_amd64 0 "Save" ex_filters "C:\" save_flags) Hin)))).
Defined.

Lemma contains_In (s : string) (c : ascii) :
  contains s c = false -> ~ In (byte_of_ascii c) (bytes s).
Proof.
  unfold contains. intros H Hin.
  assert (existsb (Z.eqb (byte_of_ascii c)) (bytes s) = true) as H'.
  { apply existsb_exists. exists (byte_of_ascii c). split; [assumption|apply Z.eqb_refl]. }
  congruence.
Qed.

Lemma bytes_uint16 (s : string) : Forall is_uint16 (bytes s).
Proof.
  eapply Forall_impl; [|apply bytes_range]. cbv beta. unfold is_uint16.
  change (2 ^ 16) with 65536. intros; lia.
Qed.

(** C8: when the call a dialog function makes answers other than zero,
    the function returns [true], no error, and the output buffer decoded
    by [UTF16ToString].  That decoding is the one of the standard: the
    units before the first zero unit, or all of them when there is none,
    are read as UTF-16, a pair of surrogates as one code point, and each
    code point is written in UTF-8; units that are ASCII come back as the
    same characters. *)
Theorem dialog_found (arch : GOARCH) (os : System) (hwnd : Z)
        (title : string) (ff : FileFilter) (dir : string) :
  (forall p ofn,
      In (p, ofn) (calls os (GetOpenFileName arch hwnd title ff dir)) ->
      ret (os p ofn) <> 0 ->
      result os (GetOpenFileName arch hwnd title ff dir)
      = Returned (syscall.UTF16ToString (file (os p ofn)), true, None)) /\
  (forall p ofn,
      In (p, ofn) (calls os (GetSaveFileName arch hwnd title ff dir)) ->
      ret (os p ofn) <> 0 ->
      result os (GetSaveFileName arch hwnd title ff dir)
      = Returned (syscall.UTF16ToString (file (os p ofn)), true, None)) /\
  (forall a b : list uint16,
      Forall is_uint16 a -> ~ In 0 a ->
      syscall.UTF16ToString (a ++ 0 :: b) = text (spec_code_points a)) /\
  (forall a : list uint16,
      Forall is_uint16 a -> ~ In 0 a ->
      syscall.UTF16ToString a = text (spec_code_points a)) /\
  (forall (s : string) (b : list uint16),
      ascii_only s = true -> contains s NUL = false ->
      syscall.UTF16ToString (bytes s ++ 0 :: b) = s).
Proof.
  assert (forall a b : list uint16,
             Forall is_uint16 a -> ~ In 0 a ->
             syscall.UTF16ToString (a ++ 0 :: b) = text (spec_code_points a)) as Hcut.
  { intros a b Ha H0. unfold syscall.UTF16ToString, text.
    now rewrite until_NUL_cut, decodeWTF16_spec. }
  split; [|split; [|split; [exact Hcut|split]]].
  - intros p ofn Hin Hret. apply calls_Open in Hin. destruct Hin as (He & -> & ->).
    unfold result. rewrite GetOpenFileName_spec, He, run_call.
    apply Z.eqb_neq in Hret. rewrite Hret. reflexivity.
  - intros p ofn Hin Hret. apply calls_Save in Hin. destruct Hin as (He & -> & ->).
    unfold result. rewrite GetSaveFileName_spec, He, run_call.
    apply Z.eqb_neq in Hret. rewrite Hret. reflexivity.
  - intros a Ha H0. rewrite UTF16ToString_text by assumption.
    now rewrite until_NUL_id.
  - intros s b Hs Hnul.
    rewrite Hcut; [|apply bytes_uint16|exact (contains_In s NUL Hnul)].
    rewrite spec_code_points_ascii; [now apply text_ascii|].
    unfold ascii_only in Hs. rewrite forallb_forall in Hs.
    apply Forall_forall. intros x Hin. specialize (Hs x Hin). apply Z.ltb_lt in Hs.
    pose proof (bytes_range s) as Hr. rewrite Forall_forall in Hr.
    specialize (Hr x Hin). lia.
Qed.

Lemma dialog_found_witness :
  result os_pick (GetOpenFileName GOARCH_amd64 0 "Open" ex_filters "C:\")
  = Returned ("C:\a.txt", true, None) /\
  result os_pick (GetSaveFileName GOARCH_amd64 0 "Save" ex_filters "C:\")
  = Returned ("C:\a.txt", true, None).
Proof.
  assert (forall p ofn,
             file (os_pick p ofn)
             = (bytes "C:\a.txt" ++ 0 :: ([66; 0] ++ make 1013))%list) as Hfile
      by (intros; vm_compute; reflexivity).
  split.
  - destruct (dialog_found GOARCH_amd64 os_pick 0 "Open" ex_filters "C:\")
      as (Ho & _ & _ & _ & Ha).
    rewrite (Ho procGetOpenFileName
                (passed_ofn GOARCH_amd64 0 "Open" ex_filters "C:\" open_flags)).
    + rewrite Hfile, Ha; reflexivity.
    + rewrite (proj1 (calls_ok GOARCH_amd64 os_pick 0 "Open" ex_filters "C:\" eq_refl)).
      left. reflexivity.
    + discriminate.
  - destruct (dialog_found GOARCH_amd64 os_pick 0 "Save" ex_filters "C:\")
      as (_ & Hs & _ & _ & Ha).
    rewrite (Hs procGetSaveFileName
                (passed_ofn GOARCH_amd64 0 "Save" ex_filters "C:\" save_flags)).
    + rewrite Hfile, Ha; reflexivity.
    + rewrite (proj2 (calls_ok GOARCH_amd64 os_pick 0 "Save" ex_filters "C:\" eq_refl)).
      left. reflexivity.
    + discriminate.
Defined.

(** The buffer [os_pick] leaves holds a path, a zero unit and more after
    it: the path is what comes back. *)
Example dialog_found_example :
  List.length (file (os_pick procGetOpenFileName
                       (passed_ofn GOARCH_amd64 0 "Open" ex_filters "C:\" open_flags)))
  = 1024%nat /\
  run os_pick (GetOpenFileName GOARCH_amd64 0 "Open" ex_filters "C:\")
  = (Returned ("C:\a.txt", true, None),
     [(procGetOpenFileName,
       passed_ofn GOARCH_amd64 0 "Open" ex_filters "C:\" open_flags)]).
Proof.
  split; [vm_compute; reflexivity|].
  rewrite GetOpenFileName_spec.
  change (encode_error "Open" ex_filters "C:\") with (@None error).
  cbv iota. rewrite run_call. f_equal; vm_compute; reflexivity.
Qed.

(** A surrogate with no partner in the buffer comes back as its three
    bytes, which is WTF-8 and no UTF-8. *)
Example UTF16ToString_surrogate :
  bytes (syscall.UTF16ToString [55296; 65; 0; 66]) = [237; 160; 128; 65].
Proof. vm_compute. reflexivity. Qed.






(** * Further properties *)

(** ** The flags *)

Lemma all_flags_disjoint (a c : Z) :
  In a all_flags -> In c all_flags -> (Z.land a c <> 0 <-> a = c).
Proof.
  intros Ha Hc.
  assert (forallb (fun a => forallb (fun c =>
            Bool.eqb (negb (Z.land a c =? 0)) (a =? c)) all_flags) all_flags
          = true) as H by (vm_compute; reflexivity).
  rewrite forallb_forall in H. specialize (H a Ha).
  rewrite forallb_forall in H. specialize (H c Hc).
  apply eqb_prop in H.
  destruct (Z.eqb_spec (Z.land a c) 0) as [Hz|Hz];
    destruct (Z.eqb_spec a c) as [Heq|Hne];
    cbn in H; try discriminate H; tauto.
Qed.

(** X1: the declared flags are 26 different single bits of a [uint32],
    so a flag word made by or-ing any selection of them has, of the
    declared flags, exactly the selected ones. *)
Theorem or_flags_members (l : list Z) (c : Z) :
  incl l all_flags -> In c all_flags ->
  (Z.land (or_flags l) c <> 0 <-> In c l) /\
  NoDup all_flags /\
  Forall (fun f => exists k, 0 <= k < 32 /\ f = 2 ^ k) all_flags.
Proof.
  intros Hl Hc. split; [|split].
  - induction l as [|a l IH]; cbn [or_flags fold_right In].
    + rewrite Z.land_0_l. tauto.
    + fold (or_flags l). rewrite Z.land_lor_distr_l.
      assert (In a all_flags) as Ha by (apply Hl; now left).
      assert (incl l all_flags) as Hl' by (intros x Hx; apply Hl; now right).
      specialize (IH Hl').
      pose proof (all_flags_disjoint a c Ha Hc) as Hac.
      pose proof (Z.lor_eq_0_iff (Z.land a c) (Z.land (or_flags l) c)) as Hor.
      destruct (Z.eq_dec (Z.land a c) 0) as [Hz|Hz];
        destruct (Z.eq_dec (Z.land (or_flags l) c) 0) as [Hz'|Hz']; tauto.
  - unfold all_flags.
    repeat (constructor; [cbn [In]; intros H;
                          repeat (destruct H as [H|H]; [discriminate H|]);
                          exact H|]).
    constructor.
  - unfold all_flags.
    repeat (constructor;
            [match goal with
             | |- exists k, _ /\ ?f = _ =>
               exists (Z.log2 f); vm_compute; split; [split; congruence | reflexivity]
             end|]).
    constructor.
Qed.

Lemma or_flags_members_witness :
  incl [OverwritePrompt; NoChangeDir; Explorer] all_flags /\
  In NoChangeDir all_flags /\
  (Z.land (or_flags [OverwritePrompt; NoChangeDir; Explorer]) NoChangeDir <> 0
   <-> In NoChangeDir [OverwritePrompt; NoChangeDir; Explorer]).
Proof.
  assert (incl [OverwritePrompt; NoChangeDir; Explorer] all_flags) as Hl.
  { intros x [<-|[<-|[<-|[]]]]; unfold all_flags; cbn [In]; tauto. }
  assert (In NoChangeDir all_flags) as Hc by (unfold all_flags; cbn [In]; tauto).
  split; [exact Hl|]. split; [exact Hc|].
  exact (proj1 (or_flags_members [OverwritePrompt; NoChangeDir; Explorer]
                                 NoChangeDir Hl Hc)).
Defined.

(** ** More on ToRaw *)

Lemma string_app_nil_r (s : string) : s ++ EmptyString = s.
Proof. induction s as [|c s IH]; simpl; [reflexivity|]. now rewrite IH. Qed.

Lemma built_body_app (ff : FileFilter) (s : string) :
  List.fold_right (fun f acc => Name f ++ "|" ++ Pattern f ++ "|" ++ acc) s ff
  = body ff ++ s.
Proof.
  induction ff as [|f ff IH]; [reflexivity|].
  cbn [fold_right body]. fold (body ff). rewrite IH.
  now rewrite !string_app_assoc.
Qed.

Lemma built_body (ff : FileFilter) : built ff = body ff ++ "|".
Proof. apply built_body_app. Qed.

Lemma built_app (ff1 ff2 : FileFilter) :
  built (ff1 ++ ff2)%list = body ff1 ++ built ff2.
Proof.
  unfold built. rewrite fold_right_app. apply built_body_app.
Qed.

(** After the first loop the builder is empty or ends with ['|']. *)
Lemma body_end (ff : FileFilter) :
  ff <> [] -> exists pre, body ff = pre ++ "|".
Proof.
  intros Hff. destruct ff as [|f ff]; [congruence|]. clear Hff.
  revert f. induction ff as [|g ff IH]; intros f.
  - exists (Name f ++ "|" ++ Pattern f). cbn [body fold_right].
    now rewrite !string_app_assoc.
  - destruct (IH g) as [pre Hpre].
    exists (Name f ++ "|" ++ Pattern f ++ "|" ++ pre).
    change (body (f :: g :: ff))
      with (Name f ++ "|" ++ Pattern f ++ "|" ++ body (g :: ff)).
    rewrite Hpre. now rewrite !string_app_assoc.
Qed.

(** What follows the builder's contents is encoded on its own. *)
Lemma enc_body_app (ff : FileFilter) (s : string) :
  enc (body ff ++ s) = (enc (body ff) ++ enc s)%list.
Proof.
  destruct ff as [|f ff]; [reflexivity|].
  destruct (body_end (f :: ff) ltac:(discriminate)) as [pre ->].
  rewrite string_app_assoc.
  change ("|" ++ s) with (String "|" s).
  change (pre ++ "|") with (pre ++ String "|" EmptyString).
  rewrite !enc_app_sep by (cbv; reflexivity).
  rewrite <- app_assoc. reflexivity.
Qed.

Lemma ToRaw_buffer (ff : FileFilter) (buf : list uint16) :
  ToRaw ff = Done (Some buf, None) ->
  has_space ff = false /\ has_NUL ff = false /\
  buf = (map sep0 (enc (body ff)) ++ [0; 0])%list.
Proof.
  rewrite ToRaw_spec.
  destruct (has_space ff); [discriminate|].
  destruct (has_NUL ff); [discriminate|].
  intros H. injection H as <-. split; [reflexivity|]. split; [reflexivity|].
  rewrite built_body, enc_body_app, map_app, <- app_assoc. reflexivity.
Qed.

(** X2: a buffer [ToRaw] returns always ends with two zero units, three
    when the list has an entry, and has no ['|'] unit: whoever reads
    fields up to an empty one stops inside the buffer. *)
Theorem ToRaw_terminated (ff : FileFilter) (buf : list uint16) :
  ToRaw ff = Done (Some buf, None) ->
  (exists l, buf = (l ++ [0; 0])%list) /\
  (ff <> [] -> exists l, buf = (l ++ [0; 0; 0])%list) /\
  ~ In 124 buf.
Proof.
  intros H. apply ToRaw_buffer in H. destruct H as (_ & _ & ->).
  split; [eauto|]. split.
  - intros Hff. destruct (body_end ff Hff) as [pre ->].
    change (pre ++ "|") with (pre ++ String "|" EmptyString).
    rewrite enc_app_sep by (cbv; reflexivity).
    exists (map sep0 (enc pre)). rewrite map_app, <- app_assoc. reflexivity.
  - intros Hin. apply in_app_or in Hin. destruct Hin as [Hin|Hin].
    + apply (count_occ_In Z.eq_dec) in Hin.
      pose proof (count_sep0_bar (enc (body ff))) as Hc. unfold count in Hc. lia.
    + cbn [In] in Hin. destruct Hin as [Hin|[Hin|[]]]; discriminate Hin.
Qed.

Lemma ToRaw_terminated_witness :
  ToRaw ex_filters = Done (Some (spec_layout ex_filters ++ [0])%list, None) /\
  (exists l, (spec_layout ex_filters ++ [0])%list = (l ++ [0; 0])%list) /\
  (ex_filters <> [] ->
   exists l, (spec_layout ex_filters ++ [0])%list = (l ++ [0; 0; 0])%list) /\
  ~ In 124 (spec_layout ex_filters ++ [0])%list.
Proof.
  assert (ToRaw ex_filters = Done (Some (spec_layout ex_filters ++ [0])%list, None))
    as H by (vm_compute; reflexivity).
  split; [exact H|]. exact (ToRaw_terminated ex_filters _ H).
Defined.

Lemma has_space_app (ff1 ff2 : FileFilter) :
  has_space (ff1 ++ ff2)%list = has_space ff1 || has_space ff2.
Proof. apply existsb_app. Qed.

Lemma has_NUL_app (ff1 ff2 : FileFilter) :
  has_NUL (ff1 ++ ff2)%list = has_NUL ff1 || has_NUL ff2.
Proof. apply existsb_app. Qed.

(** X3: encoding composes.  When two filter lists are both accepted, so
    is their concatenation, and its buffer is the buffer of the first
    without its two closing zero units, followed by the buffer of the
    second. *)
Theorem ToRaw_app (ff1 ff2 : FileFilter) (b1 b2 : list uint16) :
  ToRaw ff1 = Done (Some b1, None) ->
  ToRaw ff2 = Done (Some b2, None) ->
  ToRaw (ff1 ++ ff2)%list = Done (Some (removelast (removelast b1) ++ b2)%list, None).
Proof.
  intros H1 H2. apply ToRaw_buffer in H1. destruct H1 as (Hs1 & Hn1 & ->).
  rewrite ToRaw_spec in H2. rewrite ToRaw_spec.
  rewrite has_space_app, has_NUL_app, Hs1, Hn1. cbn [orb].
  destruct (has_space ff2); [discriminate|].
  destruct (has_NUL ff2); [discriminate|].
  injection H2 as <-.
  change [0; 0] with ([0] ++ [0])%list.
  rewrite !app_assoc, !removelast_last.
  rewrite built_app, enc_body_app, map_app, <- !app_assoc. reflexivity.
Qed.

Lemma ToRaw_app_witness :
  ToRaw [mkFilter "Text Files" "*.txt"]
  = Done (Some (enc "Text Files" ++ [0] ++ enc "*.txt" ++ [0; 0; 0])%list, None) /\
  ToRaw [mkFilter "All Files" "*.*"]
  = Done (Some (enc "All Files" ++ [0] ++ enc "*.*" ++ [0; 0; 0])%list, None) /\
  ToRaw ([mkFilter "Text Files" "*.txt"] ++ [mkFilter "All Files" "*.*"])%list
  = Done (Some (removelast (removelast
                  (enc "Text Files" ++ [0] ++ enc "*.txt" ++ [0; 0; 0]))
                ++ (enc "All Files" ++ [0] ++ enc "*.*" ++ [0; 0; 0]))%list, None).
Proof.
  assert (ToRaw [mkFilter "Text Files" "*.txt"]
          = Done (Some (enc "Text Files" ++ [0] ++ enc "*.txt" ++ [0; 0; 0])%list, None))
    as H1 by (vm_compute; reflexivity).
  assert (ToRaw [mkFilter "All Files" "*.*"]
          = Done (Some (enc "All Files" ++ [0] ++ enc "*.*" ++ [0; 0; 0])%list, None))
    as H2 by (vm_compute; reflexivity).
  split; [exact H1|]. split; [exact H2|].
  exact (ToRaw_app _ _ _ _ H1 H2).
Defined.

(** X4: what [ToRaw] refuses.  It returns an error exactly when some
    pattern has a space or some name or pattern has a NUL byte; without a
    space the error of a NUL byte is [EINVAL]; and it returns a buffer or
    an error, never both, never neither. *)
Theorem ToRaw_rejects (ff : FileFilter) :
  ((exists e, ToRaw ff = Done (None, Some e)) <->
   has_space ff = true \/ has_NUL ff = true) /\
  (has_space ff = false -> has_NUL ff = true ->
   ToRaw ff = Done (None, Some EINVAL)) /\
  (exists ptr err, ToRaw ff = Done (ptr, err) /\ (ptr = None <-> err <> None)).
Proof.
  rewrite ToRaw_spec.
  destruct (has_space ff); [|destruct (has_NUL ff)]; (split; [|split]).
  - split; eauto.
  - discriminate.
  - do 2 eexists. split; [reflexivity|]. split; [discriminate|reflexivity].
  - split; eauto.
  - reflexivity.
  - do 2 eexists. split; [reflexivity|]. split; [discriminate|reflexivity].
  - split; [intros [e H]; discriminate | intros [H|H]; discriminate].
  - discriminate.
  - do 2 eexists. split; [reflexivity|].
    split; [discriminate | intros H; now contradiction H].
Qed.

Lemma ToRaw_rejects_witness :
  has_space [mkFilter (String "a" (String NUL "b")) "*.txt"] = false /\
  has_NUL [mkFilter (String "a" (String NUL "b")) "*.txt"] = true /\
  ToRaw [mkFilter (String "a" (String NUL "b")) "*.txt"] = Done (None, Some EINVAL).
Proof.
  split; [reflexivity|]. split; [reflexivity|].
  apply (proj1 (proj2 (ToRaw_rejects [mkFilter (String "a" (String NUL "b")) "*.txt"])));
    reflexivity.
Defined.

(** ** More on NewTagOFNA and the dialog functions *)

Lemma enc_no_NUL (s : string) : contains s NUL = false -> ~ In 0 (enc s).
Proof.
  intros H Hin. apply contains_count in H. change (byte_of_ascii NUL) with 0 in H.
  rewrite <- (enc_count 0 s) in H by lia.
  apply (count_occ_In Z.eq_dec) in Hin. unfold count in H. lia.
Qed.


(** X6: whatever the system answers, a dialog function does not panic,
    makes at most one call, and returns one of three things: an error
    with the empty path and [false], having called nothing; the empty
    path, [false] and no error, after one call; a path, [true] and no
    error, after one call.  It never returns [true] with an error or
    without a call. *)
Theorem dialog_outcomes (arch : GOARCH) (os : System) (hwnd : Z)
        (title : string) (ff : FileFilter) (dir : string) :
  let shape (r : outcome (string * bool * option error) * list (Proc * TagOFNA))
            (entry : Proc) :=
    (exists e, r = (Returned (EmptyString, false, Some e), [])) \/
    (exists ofn, r = (Returned (EmptyString, false, None), [(entry, ofn)])) \/
    (exists path ofn, r = (Returned (path, true, None), [(entry, ofn)])) in
  shape (run os (GetOpenFileName arch hwnd title ff dir)) procGetOpenFileName /\
  shape (run os (GetSaveFileName arch hwnd title ff dir)) procGetSaveFileName.
Proof.
  cbv zeta. rewrite GetOpenFileName_spec, GetSaveFileName_spec.
  destruct (encode_error title ff dir) as [e|].
  - split; left; exists e; reflexivity.
  - rewrite !run_call. split; right.
    + destruct (ret (os procGetOpenFileName _) =? 0); [left|right]; eauto.
    + destruct (ret (os procGetSaveFileName _) =? 0); [left|right]; eauto.
Qed.

(** ** Text through UTF-16 and back *)

Lemma decoderune_encoderune (r : rune) (rest : list Z) :
  scalar r ->
  utf8.decoderune (utf8.encoderune r ++ rest)
  = (r, List.length (utf8.encoderune r)).
Proof.
  intros Hr. unfold scalar in Hr.
  destruct (Z.le_gt_cases r 0x7F) as [H1|H1].
  - rewrite encoderune_ascii by lia. cbn [app List.length].
    unfold utf8.decoderune, utf8.runeSelf.
    assert ((r <? 128) = true) as -> by (apply Z.ltb_lt; lia). reflexivity.
  - destruct (Z.le_gt_cases r 0x7FF) as [H2|H2].
    + rewrite encoderune_2 by lia. cbn [app List.length].
      rewrite decoderune_2 by (Z.to_euclidean_division_equations; lia).
      f_equal. Z.to_euclidean_division_equations. lia.
    + destruct (Z.le_gt_cases r 0xFFFF) as [H3|H3].
      * rewrite encoderune_3 by lia. cbn [app List.length].
        rewrite decoderune_3 by (Z.to_euclidean_division_equations; lia).
        f_equal. Z.to_euclidean_division_equations. lia.
      * rewrite encoderune_4 by lia. cbn [app List.length].
        rewrite decoderune_4 by (Z.to_euclidean_division_equations; lia).
        f_equal. Z.to_euclidean_division_equations. lia.
Qed.

Lemma decoderune_surrogate (b c : Z) (rest : list Z) :
  32 <= b < 64 -> 0 <= c < 64 ->
  utf8.decoderune (237 :: 128 + b :: 128 + c :: rest) = (utf8.runeError, 1%nat).
Proof.
  intros Hb Hc. unfold utf8.decoderune.
  unfold utf8.runeSelf, utf8.t2, utf8.t3, utf8.t4, utf8.cont, utf8.locb, utf8.hicb,
    utf8.rune2Max, utf8.surrogateMin, utf8.surrogateMax.
  change (237 <? 128) with false. change ((192 <=? 237) && (237 <? 224)) with false.
  change ((224 <=? 237) && (237 <? 240)) with true. cbv iota.
  assert ((128 <=? 128 + b) && (128 + b <=? 191) = true) as ->
    by (rewrite andb_true_iff, !Z.leb_le; lia).
  assert ((128 <=? 128 + c) && (128 + c <=? 191) = true) as ->
    by (rewrite andb_true_iff, !Z.leb_le; lia).
  cbn [andb]. rewrite !land_maskx_tx by lia.
  change (Z.land 237 utf8.mask3) with 13.
  rewrite !Z.shiftl_mul_pow2 by lia.
  rewrite (lor_mul_add 13 (b * 2 ^ 6) 12)
    by (change (2 ^ 6) with 64; change (2 ^ 12) with 4096; lia).
  replace (13 * 2 ^ 12 + b * 2 ^ 6) with ((13 * 64 + b) * 2 ^ 6)
    by (change (2 ^ 6) with 64; change (2 ^ 12) with 4096; lia).
  rewrite lor_mul_add by (change (2 ^ 6) with 64; lia). change (2 ^ 6) with 64.
  assert ((2047 <? (13 * 64 + b) * 64 + c)
          && negb ((55296 <=? (13 * 64 + b) * 64 + c)
                   && ((13 * 64 + b) * 64 + c <=? 57343)) = false) as ->.
  { rewrite andb_false_iff, negb_false_iff, andb_true_iff, Z.ltb_ge, !Z.leb_le. lia. }
  reflexivity.
Qed.

(** One turn of the encoding on the bytes of a scalar value, and on the
    three bytes of a surrogate. *)
Lemma encodeWTF16_step_scalar (r : rune) (rest : list Z) :
  scalar r ->
  syscall.encodeWTF16_step (spec_utf8 r ++ rest) []
  = (utf16.encode1 r, List.length (spec_utf8 r)).
Proof.
  intros Hr. rewrite <- encoderune_spec by assumption.
  unfold syscall.encodeWTF16_step. rewrite decoderune_encoderune by assumption.
  unfold utf16.AppendRune. cbn [app].
  destruct (Z.eqb_spec r utf8.runeError) as [->|_]; reflexivity.
Qed.

Lemma encodeWTF16_step_surrogate (r : rune) (rest : list Z) :
  0xD800 <= r <= 0xDFFF ->
  syscall.encodeWTF16_step (spec_utf8 r ++ rest) []
  = ([r], List.length (spec_utf8 r)).
Proof.
  intros Hr. unfold spec_utf8.
  assert ((r <? 128) = false) as -> by (apply Z.ltb_ge; lia).
  assert ((r <? 2048) = false) as -> by (apply Z.ltb_ge; lia).
  assert ((r <? 65536) = true) as -> by (apply Z.ltb_lt; lia).
  assert (r / 4096 = 13) as -> by (Z.to_euclidean_division_equations; lia).
  set (b := (r / 64) mod 64). set (c := r mod 64).
  assert (32 <= b < 64) as Hb by (unfold b; Z.to_euclidean_division_equations; lia).
  assert (0 <= c < 64) as Hc by (unfold c; Z.to_euclidean_division_equations; lia).
  assert (r = 0xD000 + b * 64 + c) as Hrbc
      by (unfold b, c; Z.to_euclidean_division_equations; lia).
  clearbody b c. cbn [app List.length]. change (224 + 13) with 237.
  unfold syscall.encodeWTF16_step. rewrite decoderune_surrogate by assumption.
  change (utf8.runeError =? utf8.runeError) with true. cbv iota.
  change (237 =? 237) with true.
  assert ((160 <=? 128 + b) && (128 + b <=? 191)
          && (128 <=? 128 + c) && (128 + c <=? 191) = true) as Hchk
      by (rewrite !andb_true_iff, !Z.leb_le; lia).
  cbn [andb]. rewrite Hchk. cbv zeta.
  destruct (wtf8_surrogate (128 + b) (128 + c) ltac:(lia) ltac:(lia)) as [Hv Hu].
  cbv zeta in Hv, Hu. rewrite Hu, Hv. cbn [app].
  f_equal. f_equal. lia.
Qed.

Lemma skipn_length_app {A : Type} (l l' : list A) :
  skipn (List.length l) (l ++ l') = l'.
Proof. now rewrite skipn_app, skipn_all, Nat.sub_diag. Qed.

(** The units of the text of scalar values are their UTF-16. *)
Lemma units_text (rs : list rune) :
  Forall scalar rs -> units (flat_map spec_utf8 rs) = flat_map utf16.encode1 rs.
Proof.
  induction 1 as [|r rs Hr _ IH]; [reflexivity|].
  cbn [flat_map].
  assert (0 <= r <= 0x10FFFF) as Hrange by (unfold scalar in Hr; lia).
  destruct (spec_utf8_bytes r Hrange) as (Hne & _ & _).
  rewrite units_step by (destruct (spec_utf8 r); [congruence|discriminate]).
  rewrite encodeWTF16_step_scalar by assumption. cbn [fst snd].
  now rewrite skipn_length_app, IH.
Qed.

(** The units of what nonzero units decode to are those units. *)
Lemma units_code_points (a : list uint16) :
  Forall (fun u => 0 < u < 2 ^ 16) a ->
  units (flat_map spec_utf8 (spec_code_points a)) = a.
Proof.
  remember (List.length a) as n eqn:Hn. revert a Hn.
  induction n as [n IH] using lt_wf_ind. intros a Hn Ha.
  destruct a as [|u rest]; [reflexivity|].
  assert (0 < u < 65536) as Hu by (inversion Ha; assumption).
  assert (Forall (fun u => 0 < u < 2 ^ 16) rest) as Hrest
      by (inversion Ha; assumption).
  assert (forall r l, 0 <= r <= 0x10FFFF -> (spec_utf8 r ++ l)%list <> []) as Hne.
  { intros r l Hr. destruct (spec_utf8_bytes r Hr) as (H & _ & _).
    destruct (spec_utf8 r); [congruence|discriminate]. }
  assert (forall v rest',
             ~ (0xD800 <= u < 0xDC00 /\ 0xDC00 <= v < 0xE000) ->
             rest = v :: rest' \/ rest = [] ->
             units (flat_map spec_utf8 (u :: spec_code_points rest)) = u :: rest)
    as Hsingle.
  { intros v rest' Hnp Hshape. cbn [flat_map].
    rewrite units_step by (apply Hne; lia).
    destruct (Z.le_gt_cases 0xD800 u) as [H1|H1];
      [destruct (Z.le_gt_cases u 0xDFFF) as [H2|H2]|].
    - rewrite encodeWTF16_step_surrogate by lia. cbn [fst snd app].
      rewrite skipn_length_app.
      rewrite (IH (List.length rest)); [reflexivity|subst n; simpl; lia
                                        |reflexivity|assumption].
    - rewrite encodeWTF16_step_scalar by (unfold scalar; lia). cbn [fst snd].
      rewrite skipn_length_app, encode1_scalar by (unfold scalar; lia).
      assert ((u <? 65536) = true) as -> by (apply Z.ltb_lt; lia). cbn [app].
      rewrite (IH (List.length rest)); [reflexivity|subst n; simpl; lia
                                        |reflexivity|assumption].
    - rewrite encodeWTF16_step_scalar by (unfold scalar; lia). cbn [fst snd].
      rewrite skipn_length_app, encode1_scalar by (unfold scalar; lia).
      assert ((u <? 65536) = true) as -> by (apply Z.ltb_lt; lia). cbn [app].
      rewrite (IH (List.length rest)); [reflexivity|subst n; simpl; lia
                                        |reflexivity|assumption]. }
  destruct rest as [|v rest'].
  - cbn [spec_code_points]. apply (Hsingle 0 []); [lia|now right].
  - assert (0 < v < 65536) as Hv by (inversion Hrest; assumption).
    cbn [spec_code_points].
    destruct ((55296 <=? u) && (u <? 56320) && (56320 <=? v) && (v <? 57344))
      eqn:Hpair.
    + rewrite !andb_true_iff, !Z.leb_le, !Z.ltb_lt in Hpair.
      set (cp := 65536 + (u - 55296) * 1024 + (v - 56320)).
      assert (0x10000 <= cp <= 0x10FFFF) as Hcp by (unfold cp; lia).
      cbn [flat_map]. rewrite units_step by (apply Hne; lia).
      rewrite encodeWTF16_step_scalar by (unfold scalar; lia). cbn [fst snd].
      rewrite skipn_length_app, encode1_scalar by (unfold scalar; lia).
      assert ((cp <? 65536) = false) as -> by (apply Z.ltb_ge; lia). cbn [app].
      rewrite (IH (List.length rest')); [|subst n; simpl; lia|reflexivity
                                         |now inversion Hrest].
      f_equal; [|f_equal]; unfold cp; Z.to_euclidean_division_equations; lia.
    + apply (Hsingle v rest'); [|now left].
      rewrite !andb_false_iff, !Z.leb_gt, !Z.ltb_ge in Hpair. lia.
Qed.

(** The code points of the UTF-16 of scalar values are those values. *)
Lemma spec_code_points_encode (rs : list rune) :
  Forall scalar rs -> spec_code_points (flat_map utf16.encode1 rs) = rs.
Proof.
  induction 1 as [|r rs Hr _ IH]; [reflexivity|].
  cbn [flat_map]. rewrite encode1_scalar by assumption. unfold scalar in Hr.
  destruct (Z.ltb_spec r 0x10000) as [Hlt|Hge]; cbn [app].
  - rewrite spec_code_points_single by lia. now rewrite IH.
  - rewrite spec_code_points_pair by (Z.to_euclidean_division_equations; lia).
    rewrite IH. f_equal. Z.to_euclidean_division_equations. lia.
Qed.

Lemma text_bytes_range (rs : list rune) :
  Forall (fun r => 0 <= r <= 0x10FFFF) rs ->
  bytes (text rs) = flat_map spec_utf8 rs.
Proof.
  intros Hrs. unfold text. apply bytes_string_of_bytes.
  induction Hrs as [|r rs Hr _ IH]; [constructor|].
  cbn [flat_map]. apply Forall_app. split; [|exact IH].
  now destruct (spec_utf8_bytes r Hr) as (_ & H & _).
Qed.

Lemma enc_text (rs : list rune) :
  Forall scalar rs -> enc (text rs) = flat_map utf16.encode1 rs.
Proof.
  intros Hrs. rewrite enc_units, text_bytes_range; [now apply units_text|].
  eapply Forall_impl; [|exact Hrs]. unfold scalar. intros; lia.
Qed.

(** Well-formed text comes back from its UTF-16 as it was, whatever
    follows the terminator. *)
Lemma text_round_trip (rs : list rune) (junk : list uint16) :
  Forall scalar rs -> contains (text rs) NUL = false ->
  syscall.UTF16ToString (enc (text rs) ++ 0 :: junk) = text rs.
Proof.
  intros Hrs Hnul. pose proof (enc_no_NUL _ Hnul) as H0.
  rewrite enc_text in * by assumption.
  unfold syscall.UTF16ToString. rewrite until_NUL_cut by assumption.
  rewrite decodeWTF16_spec.
  - now rewrite spec_code_points_encode.
  - clear H0 Hnul. induction Hrs as [|r rs Hr _ IH]; [constructor|].
    cbn [flat_map]. apply Forall_app. split; [now apply encode1_uint16|exact IH].
Qed.

Lemma ascii_text (s : string) :
  ascii_only s = true -> s = text (bytes s) /\ Forall scalar (bytes s).
Proof.
  intros Hs. split; [symmetry; now apply text_ascii|].
  unfold ascii_only in Hs. rewrite forallb_forall in Hs.
  apply Forall_forall. intros b Hin. specialize (Hs b Hin). apply Z.ltb_lt in Hs.
  pose proof (bytes_range s) as Hr. rewrite Forall_forall in Hr.
  specialize (Hr b Hin). unfold scalar. lia.
Qed.

(** What [UTF16ToString] returns has no NUL byte, and its UTF-16 is the
    units it was made from. *)
Lemma UTF16ToString_back (buf : list uint16) :
  Forall is_uint16 buf ->
  contains (syscall.UTF16ToString buf) NUL = false /\
  enc (syscall.UTF16ToString buf) = syscall.until_NUL buf.
Proof.
  intros Hbuf. rewrite UTF16ToString_text by assumption.
  pose proof (until_NUL_units buf Hbuf) as Hu.
  pose proof (spec_code_points_range _ Hu) as Hcp.
  destruct (text_bytes _ Hcp) as [Hbytes Hnul]. split; [exact Hnul|].
  rewrite enc_units, Hbytes. now apply units_code_points.
Qed.

(** X7: the title and the initial directory that [NewTagOFNA] puts in the
    structure decode, by the decoding the dialog functions use, to the
    strings given, whenever these are well-formed text: the UTF-8 of
    scalar values, as every ASCII string is. *)
Theorem NewTagOFNA_round_trip (arch : GOARCH) (hwnd : Z) (title : string)
        (ff : FileFilter) (dir : string) (flags : Z)
        (ofn : TagOFNA) (t d : list uint16) :
  NewTagOFNA arch hwnd title ff dir flags = Done (Some ofn, None) ->
  LpstrTitle ofn = Some t -> LpstrInitialDir ofn = Some d ->
  (forall rs, Forall scalar rs -> title = text rs ->
              syscall.UTF16ToString t = title) /\
  (forall rs, Forall scalar rs -> dir = text rs ->
              syscall.UTF16ToString d = dir) /\
  (ascii_only title = true -> syscall.UTF16ToString t = title) /\
  (ascii_only dir = true -> syscall.UTF16ToString d = dir).
Proof.
  rewrite NewTagOFNA_spec. unfold encode_error.
  destruct (contains title NUL) eqn:Ht; [discriminate|].
  destruct (has_space ff); [discriminate|].
  destruct (has_NUL ff); [discriminate|].
  destruct (contains dir NUL) eqn:Hd; [discriminate|].
  intros H. injection H as <-. cbn [new_ofn LpstrTitle LpstrInitialDir].
  intros Et Ed. injection Et as <-. injection Ed as <-.
  assert (forall s rs, contains s NUL = false -> Forall scalar rs -> s = text rs ->
                       syscall.UTF16ToString (enc s ++ [0]) = s) as Hback.
  { intros s rs Hs Hrs ->. now apply (text_round_trip rs []). }
  split; [|split; [|split]].
  - intros rs Hrs E. now apply (Hback title rs).
  - intros rs Hrs E. now apply (Hback dir rs).
  - intros Ha. destruct (ascii_text title Ha) as [E Hrs]. now apply (Hback title _ Ht Hrs).
  - intros Ha. destruct (ascii_text dir Ha) as [E Hrs]. now apply (Hback dir _ Hd Hrs).
Qed.

Lemma NewTagOFNA_round_trip_witness :
  NewTagOFNA GOARCH_amd64 0 "Open" ex_filters "C:\" open_flags
  = Done (Some (new_ofn GOARCH_amd64 0 "Open" ex_filters "C:\" open_flags), None) /\
  syscall.UTF16ToString (enc "Open" ++ [0]) = "Open" /\
  syscall.UTF16ToString (enc "C:\" ++ [0]) = "C:\".
Proof.
  assert (NewTagOFNA GOARCH_amd64 0 "Open" ex_filters "C:\" open_flags
          = Done (Some (new_ofn GOARCH_amd64 0 "Open" ex_filters "C:\" open_flags), None))
    as H by (rewrite NewTagOFNA_spec; reflexivity).
  split; [exact H|].
  destruct (NewTagOFNA_round_trip _ _ _ _ _ _ _ (enc "Open" ++ [0])%list
                                  (enc "C:\" ++ [0])%list H eq_refl eq_refl)
    as (_ & _ & Ht & Hd).
  split; [apply Ht | apply Hd]; reflexivity.
Defined.

(** ** Paths through the dialog functions *)

Lemma is_uint16_forallb (l : list Z) :
  forallb (fun u => (0 <=? u) && (u <? 2 ^ 16)) l = true -> Forall is_uint16 l.
Proof.
  intros H. rewrite forallb_forall in H. apply Forall_forall. intros u Hin.
  specialize (H u Hin). apply andb_true_iff in H.
  rewrite Z.leb_le, Z.ltb_lt in H. exact H.
Qed.

Lemma os_pick_uint16 (p : Proc) (ofn : TagOFNA) :
  Forall is_uint16 (file (os_pick p ofn)).
Proof. apply is_uint16_forallb. vm_compute. reflexivity. Qed.

Lemma dialog_found_path (arch : GOARCH) (os : System) (hwnd : Z)
      (title : string) (ff : FileFilter) (dir path : string) :
  result os (GetOpenFileName arch hwnd title ff dir) = Returned (path, true, None) \/
  result os (GetSaveFileName arch hwnd title ff dir) = Returned (path, true, None) ->
  encode_error title ff dir = None /\
  exists p ofn, path = syscall.UTF16ToString (file (os p ofn)).
Proof.
  unfold result. rewrite GetOpenFileName_spec, GetSaveFileName_spec.
  destruct (encode_error title ff dir) as [e|].
  - intros [H|H]; discriminate H.
  - rewrite !run_call. cbn [fst]. split; [reflexivity|].
    destruct H as [H|H];
      match type of H with
      | context [ret (os ?p ?ofn) =? 0] =>
        destruct (ret (os p ofn) =? 0); [discriminate H|];
        injection H as <-; exists p, ofn; reflexivity
      end.
Qed.

(** X8: a path a dialog function returns as found has no NUL byte, so
    [UTF16FromString] accepts it, and it loses nothing on the way back:
    its units are the units the system had written before the first
    zero, and decoding them gives the same path.  So it can be the
    initial directory of the next dialog: with the title and filters
    that were accepted, that call reaches the system, with the path's
    units as [LpstrInitialDir]. *)
Theorem dialog_path_reusable (arch : GOARCH) (os : System) (hwnd : Z)
        (title : string) (ff : FileFilter) (dir path : string) :
  (forall p ofn, Forall is_uint16 (file (os p ofn))) ->
  result os (GetOpenFileName arch hwnd title ff dir) = Returned (path, true, None) \/
  result os (GetSaveFileName arch hwnd title ff dir) = Returned (path, true, None) ->
  contains path NUL = false /\
  snd (syscall.UTF16FromString path) = None /\
  (exists p ofn,
      path = syscall.UTF16ToString (file (os p ofn)) /\
      fst (syscall.UTF16FromString path)
      = (syscall.until_NUL (file (os p ofn)) ++ [0])%list) /\
  syscall.UTF16ToString (fst (syscall.UTF16FromString path)) = path /\
  forall os' : System,
  exists ofn,
    calls os' (GetOpenFileName arch hwnd title ff path) = [(procGetOpenFileName, ofn)] /\
    LpstrInitialDir ofn = Some (fst (syscall.UTF16FromString path)).
Proof.
  intros Hos Hres. apply dialog_found_path in Hres.
  destruct Hres as (He & p & ofn & Hpath).
  destruct (UTF16ToString_back _ (Hos p ofn)) as [Hnul Hunits].
  rewrite <- Hpath in Hnul, Hunits.
  rewrite UTF16FromString_ok by assumption. cbn [fst snd].
  split; [assumption|]. split; [reflexivity|]. split; [|split].
  - exists p, ofn. split; [exact Hpath|]. now rewrite Hunits.
  - rewrite Hunits. unfold syscall.UTF16ToString.
    rewrite until_NUL_cut by apply until_NUL_no_NUL.
    rewrite Hpath. reflexivity.
  - intros os'.
    assert (encode_error title ff path = None) as He'.
    { unfold encode_error in *.
      destruct (contains title NUL); [discriminate|].
      destruct (has_space ff); [discriminate|].
      destruct (has_NUL ff); [discriminate|].
      now rewrite Hnul. }
    exists (passed_ofn arch hwnd title ff path open_flags).
    split; [apply (calls_ok arch os' hwnd title ff path He')|].
    unfold passed_ofn, new_ofn, set_NMaxFile, set_LpstrFile.
    cbn [LpstrInitialDir]. reflexivity.
Qed.

Lemma dialog_path_reusable_witness :
  (forall p ofn, Forall is_uint16 (file (os_pick p ofn))) /\
  result os_pick (GetOpenFileName GOARCH_amd64 0 "Open" ex_filters "C:\")
  = Returned ("C:\a.txt", true, None) /\
  contains "C:\a.txt" NUL = false /\
  snd (syscall.UTF16FromString "C:\a.txt") = None /\
  syscall.UTF16ToString (fst (syscall.UTF16FromString "C:\a.txt")) = "C:\a.txt".
Proof.
  assert (result os_pick (GetOpenFileName GOARCH_amd64 0 "Open" ex_filters "C:\")
          = Returned ("C:\a.txt", true, None)) as Hres.
  { unfold result. now rewrite (proj2 dialog_found_example). }
  split; [exact os_pick_uint16|]. split; [exact Hres|].
  destruct (dialog_path_reusable GOARCH_amd64 os_pick 0 "Open" ex_filters "C:\" "C:\a.txt"
                                 os_pick_uint16 (or_introl Hres))
    as (H1 & H2 & _ & H4 & _).
  split; [exact H1|]. split; [exact H2 | exact H4].
Defined.

(** X9: text comes back as it went.  If the call answers other than zero
    and has left in the output buffer the units [UTF16FromString] makes
    of a string that is well-formed text without NUL byte, followed by
    anything, the dialog function returns that string; every ASCII
    string is such text. *)
Theorem dialog_returns_text (arch : GOARCH) (os : System) (hwnd : Z)
        (title : string) (ff : FileFilter) (dir : string)
        (p : Proc) (ofn : TagOFNA) (s : string) (rs : list rune)
        (junk : list uint16) :
  In (p, ofn) (calls os (GetOpenFileName arch hwnd title ff dir)) \/
  In (p, ofn) (calls os (GetSaveFileName arch hwnd title ff dir)) ->
  ret (os p ofn) <> 0 ->
  s = text rs -> Forall scalar rs -> contains s NUL = false ->
  file (os p ofn) = (fst (syscall.UTF16FromString s) ++ junk)%list ->
  (In (p, ofn) (calls os (GetOpenFileName arch hwnd title ff dir)) ->
   result os (GetOpenFileName arch hwnd title ff dir) = Returned (s, true, None)) /\
  (In (p, ofn) (calls os (GetSaveFileName arch hwnd title ff dir)) ->
   result os (GetSaveFileName arch hwnd title ff dir) = Returned (s, true, None)) /\
  (forall s' : string,
      ascii_only s' = true -> s' = text (bytes s') /\ Forall scalar (bytes s')).
Proof.
  intros _ Hret Es Hrs Hs Hfile.
  assert (syscall.UTF16ToString (file (os p ofn)) = s) as Hdec.
  { rewrite Hfile, UTF16FromString_ok by assumption. cbn [fst].
    rewrite <- app_assoc. cbn [app]. subst s. now apply text_round_trip. }
  apply Z.eqb_neq in Hret.
  split; [|split; [|exact ascii_text]]; intros Hin.
  - apply calls_Open in Hin. destruct Hin as (He & -> & ->).
    unfold result. rewrite GetOpenFileName_spec, He, run_call, Hret, Hdec. reflexivity.
  - apply calls_Save in Hin. destruct Hin as (He & -> & ->).
    unfold result. rewrite GetSaveFileName_spec, He, run_call, Hret, Hdec. reflexivity.
Qed.

Lemma dialog_returns_text_witness :
  In (procGetOpenFileName, passed_ofn GOARCH_amd64 0 "Open" ex_filters "C:\" open_flags)
     (calls os_pick (GetOpenFileName GOARCH_amd64 0 "Open" ex_filters "C:\")) /\
  "C:\a.txt" = text (bytes "C:\a.txt") /\
  result os_pick (GetOpenFileName GOARCH_amd64 0 "Open" ex_filters "C:\")
  = Returned ("C:\a.txt", true, None).
Proof.
  assert (In (procGetOpenFileName,
              passed_ofn GOARCH_amd64 0 "Open" ex_filters "C:\" open_flags)
             (calls os_pick (GetOpenFileName GOARCH_amd64 0 "Open" ex_filters "C:\")))
    as Hin.
  { rewrite (proj1 (calls_ok GOARCH_amd64 os_pick 0 "Open" ex_filters "C:\" eq_refl)).
    left. reflexivity. }
  assert (file (os_pick procGetOpenFileName
                  (passed_ofn GOARCH_amd64 0 "Open" ex_filters "C:\" open_flags))
          = (fst (syscall.UTF16FromString "C:\a.txt") ++ ([66; 0] ++ make 1013))%list)
    as Hfile by (vm_compute; reflexivity).
  destruct (ascii_text "C:\a.txt" eq_refl) as [Etext Hsc].
  destruct (dialog_returns_text GOARCH_amd64 os_pick 0 "Open" ex_filters "C:\"
              procGetOpenFileName
              (passed_ofn GOARCH_amd64 0 "Open" ex_filters "C:\" open_flags)
              "C:\a.txt" (bytes "C:\a.txt") ([66; 0] ++ make 1013)%list
              (or_introl Hin) ltac:(discriminate) Etext Hsc eq_refl Hfile)
    as (Ho & _ & _).
  split; [exact Hin|]. split; [exact Etext | exact (Ho Hin)].
Defined.
